(** * IELTS Pro: certificate scoring and payment reconciliation

  A shallow embedding of the score-to-level logic of
  [src/pages/Certificate.tsx], of the payment initiation of
  [src/components/PaymentModal.tsx] and of the [verify-payment] edge
  function, with the properties of the specification proved (or refuted)
  on it. *)

From Stdlib Require Import ZArith QArith Qround Bool List Ascii String Lia.
From Stdlib Require Import DecimalString DecimalZ.
Import ListNotations.

Local Open Scope string_scope.
Local Open Scope Z_scope.

(** ** JavaScript numbers

  A JavaScript [number] that holds a finite value is modelled by the
  rational it denotes.  The programs below only add a handful of small
  integers and divide by four, which IEEE doubles do exactly, so no
  rounding error is lost by the model. *)
Module Js.

Definition number := Q.

(** [Math.round(x)]: the integer closest to [x], ties going to the
    greater one (towards +infinity). *)
Definition Math_round (x : number) : Z := Qfloor (x + (1 # 2)).

(** [v ?? d]: [null] and [undefined] (here [None]) are replaced by [d]. *)
Definition nullish {A : Type} (v : option A) (d : A) : A :=
  match v with
  | Some a => a
  | None => d
  end.

(** [a >= b] on numbers. *)
Definition ge (a b : number) : bool := Qle_bool b a.

(** [s || d] on strings that may be absent: [null], [undefined] and the
    empty string are falsy. *)
Definition or_else (s : option string) (d : string) : string :=
  match s with
  | Some "" => d
  | Some v => v
  | None => d
  end.

(** The same, when the right operand may itself be absent. *)
Definition or_opt (s t : option string) : option string :=
  match s with
  | Some "" => t
  | Some v => Some v
  | None => t
  end.

(** [n.toString()] for an integer [n]. *)
Definition toString (n : Z) : string := NilZero.string_of_int (Z.to_int n).

(** [s.slice(0, n)]. *)
Definition slice0 (n : nat) (s : string) : string := substring 0 n s.

End Js.

(** ** Dates

    A [Date] is its time value: milliseconds since 1970-01-01T00:00:00Z, or
    no number at all ([NaN], here [None]) for an invalid date.  The host's
    time zone is the function [LocalTZA] of ECMAScript: the offset, in
    milliseconds, of local time from UTC at a given instant. *)
Module JsDate.

Import Js.

Definition TimeValue := option Z.

Definition msPerDay : Z := 86400000.

(** Day number of a time value (floor division, as in ECMAScript). *)
Definition Day (t : Z) : Z := t / msPerDay.

(** A date of the proleptic Gregorian calendar: [month] is 1..12. *)
Record Civil := mkCivil { year : Z; month : Z; date : Z }.

(** Calendar date of a day number, by 400-year eras of 146097 days that
    start on 1 March. *)
Definition civil_from_days (n : Z) : Civil :=
  let z := n + 719468 in
  let era := z / 146097 in
  let doe := z - era * 146097 in
  let yoe := (doe - doe / 1460 + doe / 36524 - doe / 146096) / 365 in
  let doy := doe - (365 * yoe + yoe / 4 - yoe / 100) in
  let mp := (5 * doy + 2) / 153 in
  let d := doy - (153 * mp + 2) / 5 + 1 in
  let m := if mp <? 10 then mp + 3 else mp - 9 in
  let y := yoe + era * 400 in
  mkCivil (if m <=? 2 then y + 1 else y) m d.

(** The day number of a calendar date: the inverse conversion. *)
Definition days_from_civil (c : Civil) : Z :=
  let y := if month c <=? 2 then year c - 1 else year c in
  let era := y / 400 in
  let yoe := y - era * 400 in
  let mp := if 2 <? month c then month c - 3 else month c + 9 in
  let doy := (153 * mp + 2) / 5 + date c - 1 in
  let doe := yoe * 365 + yoe / 4 - yoe / 100 + doy in
  era * 146097 + doe - 719468.

(** The local calendar date of an instant. *)
Definition local_civil (LocalTZA : Z -> Z) (t : Z) : Civil :=
  civil_from_days (Day (t + LocalTZA t)).

(** Abbreviated month names of the [en-US] locale ([month: 'short']). *)
Definition month_short (m : Z) : string :=
  nth (Z.to_nat (m - 1))
    ["Jan"; "Feb"; "Mar"; "Apr"; "May"; "Jun";
     "Jul"; "Aug"; "Sep"; "Oct"; "Nov"; "Dec"] "".

(** A field printed with [2-digit]: padded with a zero to two digits. *)
Definition two_digit (n : Z) : string :=
  if n <? 10 then "0" ++ toString n else toString n.

(** The year field [y] of the locale data is the year of the era: years
    up to 0 are counted backwards from 1 (year 0 is 1 BC). *)
Definition year_of_era (y : Z) : Z := if 0 <? y then y else 1 - y.

(** [d.toLocaleDateString('en-US', { day: '2-digit', month: 'short',
    year: 'numeric' })].  The [en-US] pattern for these three fields is
    [MMM dd, y]: month first, then the day and a comma, then the year. *)
Definition toLocaleDateString_enUS (LocalTZA : Z -> Z) (d : TimeValue) : string :=
  match d with
  | None => "Invalid Date"
  | Some t =>
      let c := local_civil LocalTZA t in
      month_short (month c) ++ " " ++ two_digit (date c) ++ ", "
        ++ toString (year_of_era (year c))
  end.

End JsDate.

(** ** Certificate.tsx *)
Module Certificate.

Import Js.

Definition scoreToCefr (score : number) : string :=
  if ge score 86%Q then "C2"
  else if ge score 71%Q then "C1"
  else if ge score 51%Q then "B2"
  else if ge score 41%Q then "B1"
  else if ge score 21%Q then "A2"
  else if ge score 11%Q then "A1"
  else "A0".

Definition getScoreRange (score : number) : string :=
  if ge score 86%Q then "86-100"
  else if ge score 71%Q then "71-85"
  else if ge score 51%Q then "51-70"
  else if ge score 41%Q then "41-50"
  else if ge score 21%Q then "21-40"
  else if ge score 11%Q then "11-20"
  else "0-10".

(** The names of the members that an object literal inherits from
    [Object.prototype]: indexing the literal by one of them gives that
    member (a function, or the prototype itself), which is truthy and no
    string. *)
Definition inherited : list string :=
  ["constructor"; "hasOwnProperty"; "isPrototypeOf"; "propertyIsEnumerable";
   "toLocaleString"; "toString"; "valueOf"; "__proto__";
   "__defineGetter__"; "__defineSetter__"; "__lookupGetter__";
   "__lookupSetter__"].

(** What indexing the table of labels gives: a label, or an inherited
    member. *)
Inductive Label : Type :=
| Words (s : string)
| Member (key : string).

(** [labels[cefr] || '']: the label of a band, the inherited member for
    the name of one, and the empty string for any other key. *)
Definition getCefrLabel (cefr : string) : Label :=
  if String.eqb cefr "C2" then Words "Proficient"
  else if String.eqb cefr "C1" then Words "Advanced"
  else if String.eqb cefr "B2" then Words "Upper Intermediate"
  else if String.eqb cefr "B1" then Words "Intermediate"
  else if String.eqb cefr "A2" then Words "Elementary"
  else if String.eqb cefr "A1" then Words "Beginner"
  else if String.eqb cefr "A0" then Words "Novice"
  else if existsb (String.eqb cefr) inherited then Member cefr
  else Words "".

(** [s.split(' ')]: the pieces between the separators; the empty string
    gives one empty piece. *)
Fixpoint split (sep : ascii) (s : string) : list string :=
  match s with
  | EmptyString => [""]
  | String c r =>
      if Ascii.eqb c sep then "" :: split sep r
      else match split sep r with
           | h :: t => String c h :: t
           | [] => [String c ""]
           end
  end.

Definition isWhiteSpace (c : ascii) : bool :=
  let n := N_of_ascii c in
  ((n =? 32) || (n =? 9) || (n =? 10) || (n =? 11) || (n =? 12) || (n =? 13))%N.

Fixpoint trimStart (s : string) : string :=
  match s with
  | String c r => if isWhiteSpace c then trimStart r else s
  | EmptyString => s
  end.

Definition digit_of (c : ascii) : option Z :=
  let n := Z.of_N (N_of_ascii c) in
  if (48 <=? n) && (n <=? 57) then Some (n - 48) else None.

(** The value of the longest prefix of decimal digits, [None] when the
    string does not start with a digit. *)
Fixpoint digits (acc : option Z) (s : string) : option Z :=
  match s with
  | String c r =>
      match digit_of c with
      | Some k => digits (Some (10 * nullish acc 0 + k)) r
      | None => acc
      end
  | EmptyString => acc
  end.

(** [parseInt(s, 10)]; [None] is [NaN]. *)
Definition parseInt (s : string) : option Z :=
  match trimStart s with
  | String "-" r => option_map Z.opp (digits None r)
  | String "+" r => digits None r
  | r => digits None r
  end.

(** [map[monthShort]] for the table's own twelve entries; [None] is
    [undefined].  (The name of an inherited member, see [inherited],
    would get that member; no string stands for it, and no such piece is
    given to the function below.) *)
Definition monthFullName (monthShort : string) : option string :=
  if String.eqb monthShort "Jan" then Some "January"
  else if String.eqb monthShort "Feb" then Some "February"
  else if String.eqb monthShort "Mar" then Some "March"
  else if String.eqb monthShort "Apr" then Some "April"
  else if String.eqb monthShort "May" then Some "May"
  else if String.eqb monthShort "Jun" then Some "June"
  else if String.eqb monthShort "Jul" then Some "July"
  else if String.eqb monthShort "Aug" then Some "August"
  else if String.eqb monthShort "Sep" then Some "September"
  else if String.eqb monthShort "Oct" then Some "October"
  else if String.eqb monthShort "Nov" then Some "November"
  else if String.eqb monthShort "Dec" then Some "December"
  else None.

(** [formatAwardDate(dateStr)], the consumer of the record's [testDate]:
    it takes the first space-separated piece for the day, the second for
    the abbreviated month and the third for the year.  [today] is the
    local date of [new Date()], used for a missing piece. *)
Definition formatAwardDate (today : JsDate.Civil) (dateStr : string) : string :=
  let parts := split " " (or_else (Some dateStr) "") in
  let day := or_else (nth_error parts 0) (toString (JsDate.date today)) in
  let monthShort :=
    or_else (nth_error parts 1) (JsDate.month_short (JsDate.month today)) in
  let year := or_else (nth_error parts 2) (toString (JsDate.year today)) in
  let d := parseInt day in
  let ends k := match d with Some n => Z.rem n 10 =? k | None => false end in
  let differs k := match d with Some n => negb (n =? k) | None => true end in
  let suffix :=
    if ends 1 && differs 11 then "st"
    else if ends 2 && differs 12 then "nd"
    else if ends 3 && differs 13 then "rd"
    else "th" in
  let monthFull := or_else (monthFullName monthShort) monthShort in
  match d with Some n => toString n | None => "NaN" end
    ++ suffix ++ " day of " ++ monthFull ++ ", " ++ year.

(** A row of [test_attempts]: a score column may hold [null]; [test_date]
    stands for the time value of [new Date(attempt.test_date)]. *)
Record Attempt := mkAttempt {
  listening_score : option number;
  reading_score : option number;
  writing_score : option number;
  speaking_score : option number;
  test_date : JsDate.TimeValue
}.

Record Cefr := mkCefr {
  cefr_overall : string;
  cefr_listening : string;
  cefr_reading : string;
  cefr_writing : string;
  cefr_speaking : string
}.

Record Scores := mkScores {
  listening : Z;
  reading : Z;
  writing : Z;
  speaking : Z
}.

Record CertificateData := mkCertificateData {
  candidateName : string;
  testDate : string;
  certificateId : string;
  totalScore : Z;
  cefr : Cefr;
  scores : Scores
}.

(** The result of a Supabase query with [.single()]. *)
Inductive QueryResult (A : Type) : Type :=
| Data (data : A)
| Error (message : string).
Arguments Data {A} data.
Arguments Error {A} message.

(** What [fetchCertificateData] reads from its collaborators: the session
    (the user's id), the attempt row, [profile?.full_name],
    [cert?.certificate_id], [localStorage.getItem('candidateName')], the
    route parameter [id] and the host's time zone. *)
Record Sources := mkSources {
  session : option string;
  attempt_query : QueryResult Attempt;
  profile_full_name : option string;
  cert_certificate_id : option string;
  stored_candidateName : option string;
  id : option string;
  LocalTZA : Z -> Z
}.

(** [Math.round((listeningScore + readingScore + writingScore +
    speakingScore) / 4)] *)
Definition overall (listeningScore readingScore writingScore speakingScore : Z) : Z :=
  Math_round
    (inject_Z (listeningScore + readingScore + writingScore + speakingScore) / 4)%Q.

(** [`CERT-${id?.slice(0, 8)}`] *)
Definition fallbackCertificateId (id : option string) : string :=
  "CERT-" ++ match id with
             | Some i => slice0 8 i
             | None => "undefined"
             end.

(** The body of [fetchCertificateData] once the attempt row is there. *)
Definition buildCertificateData (src : Sources) (attempt : Attempt) : CertificateData :=
  let listeningScore := Math_round (nullish (listening_score attempt) 0%Q) in
  let readingScore := Math_round (nullish (reading_score attempt) 0%Q) in
  let writingScore := Math_round (nullish (writing_score attempt) 0%Q) in
  let speakingScore := Math_round (nullish (speaking_score attempt) 0%Q) in
  let totalScore := overall listeningScore readingScore writingScore speakingScore in
  let listeningCefr := scoreToCefr (inject_Z listeningScore) in
  let readingCefr := scoreToCefr (inject_Z readingScore) in
  let writingCefr := scoreToCefr (inject_Z writingScore) in
  let speakingCefr := scoreToCefr (inject_Z speakingScore) in
  let overallCefr := scoreToCefr (inject_Z totalScore) in
  {| candidateName :=
       or_else (or_opt (profile_full_name src) (stored_candidateName src))
         "Candidate";
     testDate := JsDate.toLocaleDateString_enUS (LocalTZA src) (test_date attempt);
     certificateId :=
       or_else (cert_certificate_id src) (fallbackCertificateId (id src));
     totalScore := totalScore;
     cefr := mkCefr overallCefr listeningCefr readingCefr writingCefr speakingCefr;
     scores := mkScores listeningScore readingScore writingScore speakingScore |}.

(** The component's state that the fetch writes. *)
Record State := mkState {
  certificateData : option CertificateData;
  loading : bool
}.

(** [fetchCertificateData]: without a session nothing is set; an error of
    the attempt query is thrown and caught, and nothing is set either; in
    every case [loading] ends up [false]. *)
Definition fetchCertificateData (src : Sources) (st : State) : State :=
  match session src with
  | None => mkState (certificateData st) false
  | Some _ =>
      match attempt_query src with
      | Error _ => mkState (certificateData st) false
      | Data attempt => mkState (Some (buildCertificateData src attempt)) false
      end
  end.

End Certificate.

(** ** JSON values, as far as the payment code looks into them *)
Module Json.

#[local] Set Warnings "-register-all".

Inductive value : Type :=
| Null
| Bool (b : bool)
| Num (n : Js.number)
| Str (s : string)
| Arr (items : list value)
| Obj (fields : list (string * value)).

Fixpoint assoc (k : string) (fields : list (string * value)) : option value :=
  match fields with
  | [] => None
  | (k', v) :: rest => if String.eqb k k' then Some v else assoc k rest
  end.

(** [v?.k]: [undefined] (here [None]) unless [v] is an object with the
    property [k]. *)
Definition get (v : option value) (k : string) : option value :=
  match v with
  | Some (Obj fields) => assoc k fields
  | _ => None
  end.

(** [JSON.stringify] of an object literal leaves out the properties whose
    value is [undefined]. *)
Definition field (k : string) (v : option value) : list (string * value) :=
  match v with
  | Some x => [(k, x)]
  | None => []
  end.

End Json.

(** ** The transaction ledger: the table [payment_transactions] *)
Module Ledger.

Record Row := mkRow {
  user_id : string;
  amount : Z;
  purpose : string;
  reference : string;
  status : string;
  paystack_response : Json.value
}.

(** Rows in insertion order; nothing in the source makes a reference
    unique in the table. *)
Definition t := list Row.

(** What the store answers to a write: no error, or an error message. *)
Inductive Outcome : Type :=
| Ok
| Failed (message : string).

Definition insert (o : Outcome) (r : Row) (l : t) : t :=
  match o with
  | Ok => (l ++ [r])%list
  | Failed _ => l
  end.

(** [.update({ status, paystack_response }).eq('reference', ref)]: every
    row with that reference gets the two columns; a reference that
    matches no row is no error. *)
Definition update_row (ref st : string) (resp : Json.value) (r : Row) : Row :=
  if String.eqb (reference r) ref
  then mkRow (user_id r) (amount r) (purpose r) (reference r) st resp
  else r.

Definition update (o : Outcome) (ref st : string) (resp : Json.value) (l : t) : t :=
  match o with
  | Ok => map (update_row ref st resp) l
  | Failed _ => l
  end.

(** The ledger has a row of the reference. *)
Definition present (ref : string) (l : t) : Prop :=
  exists r, In r l /\ reference r = ref.

End Ledger.

(** ** The edge function [verify-payment] *)
Module VerifyPayment.

Record Env := mkEnv {
  PAYSTACK_SECRET_KEY : option string;
  SUPABASE_URL : option string;
  SUPABASE_SERVICE_ROLE_KEY : option string
}.

(** The request body: [req.json()] rejects on a body that is not JSON;
    otherwise the client posts [{ reference: <string> }], and [reference]
    is [None] when the property is missing. *)
Inductive Request : Type :=
| Unparsable
| Parsed (reference : option string).

(** The gateway's answer to [GET /transaction/verify/<reference>]:
    [verifyRes.ok] and the parsed body. *)
Record Verify := mkVerify { ok : bool; json : Json.value }.

(** The collaborators of one invocation.  The gateway gives no answer
    ([None]) when [fetch] or [verifyRes.json()] rejects. *)
Record World := mkWorld {
  env : Env;
  gateway : string -> option Verify;
  store : Ledger.Outcome
}.

Inductive Body : Type :=
| Text (s : string)
| Stringified (v : Json.value).

Record Response := mkResponse { body : Body; http_status : Z }.

(** The handler returns a response, or a rejected promise escapes it. *)
Inductive Result : Type :=
| Returned (r : Response)
| Thrown.

(** [!s] for a string. *)
Definition falsy (s : string) : bool := String.eqb s "".

(** [status === 'success' ? 'verified' : 'failed'] *)
Definition stored_status (status : option Json.value) : string :=
  match status with
  | Some (Json.Str s) => if String.eqb s "success" then "verified" else "failed"
  | _ => "failed"
  end.

Definition handler (w : World) (req : Request) (l : Ledger.t) : Result * Ledger.t :=
  let secret := Js.nullish (PAYSTACK_SECRET_KEY (env w)) "" in
  let supabaseUrl := Js.nullish (SUPABASE_URL (env w)) "" in
  let serviceKey := Js.nullish (SUPABASE_SERVICE_ROLE_KEY (env w)) "" in
  if falsy secret || falsy supabaseUrl || falsy serviceKey
  then (Returned (mkResponse (Text "missing env") 500), l)
  else
    match req with
    | Unparsable => (Thrown, l)
    | Parsed None => (Returned (mkResponse (Text "missing reference") 400), l)
    | Parsed (Some reference) =>
        if falsy reference
        then (Returned (mkResponse (Text "missing reference") 400), l)
        else
          match gateway w reference with
          | None => (Thrown, l)
          | Some verifyRes =>
              let verifyJson := json verifyRes in
              if negb (ok verifyRes)
              then (Returned (mkResponse (Stringified verifyJson) 502), l)
              else
                let status :=
                  Json.get (Json.get (Some verifyJson) "data") "status" in
                let amount :=
                  Json.get (Json.get (Some verifyJson) "data") "amount" in
                let l' :=
                  Ledger.update (store w) reference (stored_status status)
                    verifyJson l in
                match store w with
                | Ledger.Failed message =>
                    (Returned (mkResponse (Text message) 500), l')
                | Ledger.Ok =>
                    (Returned
                       (mkResponse
                          (Stringified
                             (Json.Obj (Json.field "status" status
                                          ++ Json.field "amount" amount)%list))
                          200), l')
                end
          end
    end.

(** All three settings are there and not empty. *)
Definition configured (e : Env) : bool :=
  negb (falsy (Js.nullish (PAYSTACK_SECRET_KEY e) "")
        || falsy (Js.nullish (SUPABASE_URL e) "")
        || falsy (Js.nullish (SUPABASE_SERVICE_ROLE_KEY e) "")).

(** The status the gateway reports: [verifyJson?.data?.status]. *)
Definition reported_status (v : Verify) : option Json.value :=
  Json.get (Json.get (Some (json v)) "data") "status".

Definition reported_amount (v : Verify) : option Json.value :=
  Json.get (Json.get (Some (json v)) "data") "amount".

(** The answer [{ status, amount }] with HTTP status 200. *)
Definition answer_200 (v : Verify) : Result :=
  Returned
    (mkResponse
       (Stringified
          (Json.Obj (Json.field "status" (reported_status v)
                       ++ Json.field "amount" (reported_amount v))%list))
       200).

(** The caller gets an error: a response with an HTTP status from 400
    on, or no response. *)
Definition is_error (r : Result) : Prop :=
  match r with
  | Returned resp => 400 <= http_status resp
  | Thrown => True
  end.

End VerifyPayment.

(** ** PaymentModal.tsx *)
Module PaymentModal.

Record Config := mkConfig {
  reference : string;
  email : string;
  amount : Z;
  currency : string;
  publicKey : string
}.

(** [paystackConfig], rebuilt by every render; [now] is
    [new Date().getTime()]. *)
Definition paystackConfig (now : Z) (userEmail : string)
    (VITE_PAYSTACK_PUBLIC_KEY : option string) : Config :=
  {| reference := Js.toString now;
     email := Js.or_else (Some userEmail) "user@example.com";
     amount := 250000;
     currency := "KES";
     publicKey := Js.or_else VITE_PAYSTACK_PUBLIC_KEY "" |}.

Definition isAllowedKey (c : Config) : bool :=
  String.prefix "pk_live" (publicKey c) || String.prefix "pk_test" (publicKey c).

Definition canPay (c : Config) : bool :=
  negb (String.eqb (publicKey c) "") && isAllowedKey c.

(** What the browser keeps: [localStorage], the toasts shown and the
    calls of the [onSuccess] property. *)
Record Client := mkClient {
  localStorage : list (string * string);
  toasts : list string;
  onSuccess_calls : nat
}.

Definition setItem (k v : string) (s : list (string * string)) : list (string * string) :=
  (k, v) :: filter (fun kv => negb (String.eqb (fst kv) k)) s.

(** The collaborators of the modal: the signed-in user's email and id,
    the configured key, the answer of the store to the insert, whether
    [localStorage] can be written, and the world of the edge function. *)
Record Host := mkHost {
  userEmail : string;
  VITE_PAYSTACK_PUBLIC_KEY : option string;
  session_user_id : option string;
  insert_outcome : Ledger.Outcome;
  storage_writable : bool;
  backend : VerifyPayment.World
}.

(** The row that [handlePaymentSuccess] inserts. *)
Definition success_row (c : Config) (uid : string) (response : Json.value) : Ledger.Row :=
  Ledger.mkRow uid (amount c) "reattempt" (reference c) "success" response.

(** [handlePaymentSuccess(reference)]: with a signed-in user, the row is
    inserted and [verify-payment] is invoked on the same reference; then
    the flags are stored, the toast is shown and [onSuccess] is called. *)
Definition handlePaymentSuccess (h : Host) (c : Config) (response : Json.value)
    (l : Ledger.t) (cl : Client) : Ledger.t * Client :=
  let l' :=
    match session_user_id h with
    | Some uid =>
        if String.eqb uid "" then l
        else
          let inserted := Ledger.insert (insert_outcome h) (success_row c uid response) l in
          snd (VerifyPayment.handler (backend h)
                 (VerifyPayment.Parsed (Some (reference c))) inserted)
    | None => l
    end in
  let storage :=
    if storage_writable h
    then setItem "paymentReference" (reference c)
           (setItem "hasPaid" "true" (localStorage cl))
    else localStorage cl in
  (l', mkClient storage
         ("Payment successful! You can now start your test." :: toasts cl)
         (S (onSuccess_calls cl))).

(** [handlePaymentClose] *)
Definition handlePaymentClose (cl : Client) : Client :=
  mkClient (localStorage cl)
    ("Payment was not completed. Please try again." :: toasts cl)
    (onSuccess_calls cl).

(** The modal with its surroundings: the configuration of the last
    render, whether the gateway's checkout has been opened, the ledger and
    the browser. *)
Record Modal := mkModal {
  config : option Config;
  checkout_opened : bool;
  ledger : Ledger.t;
  client : Client
}.

Inductive Event : Type :=
| Render (now : Z)
| Pay
| GatewaySuccess (response : Json.value)
| GatewayClose.

(** One step of the modal.  [Pay] is the press of the [PaystackButton],
    which is rendered when [canPay] holds: the gateway's flow begins, and
    no code of the component runs.  The gateway's callbacks run the
    handlers of the render that built them. *)
Definition step (h : Host) (m : Modal) (e : Event) : Modal :=
  match e with
  | Render now =>
      mkModal (Some (paystackConfig now (userEmail h) (VITE_PAYSTACK_PUBLIC_KEY h)))
        (checkout_opened m) (ledger m) (client m)
  | Pay =>
      match config m with
      | Some c =>
          if canPay c then mkModal (config m) true (ledger m) (client m) else m
      | None => m
      end
  | GatewaySuccess response =>
      match config m with
      | Some c =>
          let (l, cl) := handlePaymentSuccess h c response (ledger m) (client m) in
          mkModal (config m) (checkout_opened m) l cl
      | None => m
      end
  | GatewayClose =>
      mkModal (config m) (checkout_opened m) (ledger m)
        (handlePaymentClose (client m))
  end.

Definition run (h : Host) (m : Modal) (es : list Event) : Modal :=
  fold_left (step h) es m.

(** A freshly opened modal over a given ledger. *)
Definition mounted (l : Ledger.t) : Modal :=
  mkModal None false l (mkClient [] [] 0).

(** The ledger holds a pending row for a reference. *)
Definition pending_row (ref : string) (l : Ledger.t) : Prop :=
  exists r, In r l /\ Ledger.reference r = ref /\ Ledger.status r = "pending".

End PaymentModal.

(** ** A concrete deployment, for the examples *)
Module Sample.

Definition env : VerifyPayment.Env :=
  VerifyPayment.mkEnv (Some "sk_test_1") (Some "https://db.example")
    (Some "service-role").

(** The gateway's body for a transaction it reports as successful. *)
Definition success_json : Json.value :=
  Json.Obj [("status", Json.Bool true);
            ("data", Json.Obj [("status", Json.Str "success");
                               ("amount", Json.Num 250000%Q)])].

Definition verified : VerifyPayment.Verify :=
  VerifyPayment.mkVerify true success_json.

Definition world : VerifyPayment.World :=
  VerifyPayment.mkWorld env (fun _ => Some verified) Ledger.Ok.

(** A later answer of the gateway that still reports success, with
    another body. *)
Definition verified_again : VerifyPayment.Verify :=
  VerifyPayment.mkVerify true
    (Json.Obj [("data", Json.Obj [("status", Json.Str "success")])]).

Definition world_again : VerifyPayment.World :=
  VerifyPayment.mkWorld env (fun _ => Some verified_again) Ledger.Ok.

(** A later answer of the gateway that reports the transaction as
    abandoned. *)
Definition abandoned : VerifyPayment.Verify :=
  VerifyPayment.mkVerify true
    (Json.Obj [("status", Json.Bool true);
               ("data", Json.Obj [("status", Json.Str "abandoned");
                                  ("amount", Json.Num 250000%Q)])]).

Definition world_abandoned : VerifyPayment.World :=
  VerifyPayment.mkWorld env (fun _ => Some abandoned) Ledger.Ok.

(** One row, as [handlePaymentSuccess] leaves it. *)
Definition ledger : Ledger.t :=
  [Ledger.mkRow "user-1" 250000 "reattempt" "1700000000000" "success" Json.Null].

Definition host : PaymentModal.Host :=
  PaymentModal.mkHost "ann@example.com" (Some "pk_test_1") (Some "user-1")
    Ledger.Ok true world.

End Sample.

(** ** The bands a score can fall into *)
Module Band.

Inductive Level : Type := A0 | A1 | A2 | B1 | B2 | C1 | C2.

(** The string the code uses for a level. *)
Definition code (l : Level) : string :=
  match l with
  | A0 => "A0" | A1 => "A1" | A2 => "A2" | B1 => "B1"
  | B2 => "B2" | C1 => "C1" | C2 => "C2"
  end.

Definition rank (l : Level) : nat :=
  match l with
  | A0 => 0 | A1 => 1 | A2 => 2 | B1 => 3 | B2 => 4 | C1 => 5 | C2 => 6
  end%nat.

(** The level of a score, read off the thresholds of the table. *)
Definition of_score (z : Z) : Level :=
  if 86 <=? z then C2
  else if 71 <=? z then C1
  else if 51 <=? z then B2
  else if 41 <=? z then B1
  else if 21 <=? z then A2
  else if 11 <=? z then A1
  else A0.

(** The display range that goes with a level. *)
Definition range (l : Level) : string :=
  match l with
  | C2 => "86-100" | C1 => "71-85" | B2 => "51-70" | B1 => "41-50"
  | A2 => "21-40" | A1 => "11-20" | A0 => "0-10"
  end.

End Band.

(** ** The date pattern [DD Mon YYYY] *)
Module DatePattern.

Definition is_digit (c : ascii) : bool :=
  let n := N_of_ascii c in ((48 <=? n) && (n <=? 57))%N.

Definition is_letter (c : ascii) : bool :=
  let n := N_of_ascii c in
  (((65 <=? n) && (n <=? 90)) || ((97 <=? n) && (n <=? 122)))%N.

(** Two digits, a space, three letters, a space, four digits. *)
Definition DD_Mon_YYYY (s : string) : bool :=
  match list_ascii_of_string s with
  | [d1; d2; s1; m1; m2; m3; s2; y1; y2; y3; y4] =>
      is_digit d1 && is_digit d2 && Ascii.eqb s1 " "
      && is_letter m1 && is_letter m2 && is_letter m3 && Ascii.eqb s2 " "
      && is_digit y1 && is_digit y2 && is_digit y3 && is_digit y4
  | _ => false
  end.

End DatePattern.

(** ** What the certificate page shows of a record *)
Module CertificateView.

Import Js Certificate.

(** [certificateData.certificateId || 'CERT-70200390'] *)
Definition shownCertificateId (cd : CertificateData) : string :=
  or_else (Some (certificateId cd)) "CERT-70200390".

(** [certificateData.candidateName || 'Felix Kigen'], before its letters
    are turned to capitals. *)
Definition shownCandidateName (cd : CertificateData) : string :=
  or_else (Some (candidateName cd)) "Felix Kigen".

(** [\w]: a letter of the English alphabet, a digit or the underscore. *)
Definition isWordChar (c : ascii) : bool :=
  let n := N_of_ascii c in
  (((65 <=? n) && (n <=? 90)) || ((97 <=? n) && (n <=? 122))
   || ((48 <=? n) && (n <=? 57)) || (n =? 95))%N.

(** [c.toUpperCase()] for a character that [\w] matches. *)
Definition toUpperCase (c : ascii) : ascii :=
  let n := N_of_ascii c in
  if ((97 <=? n) && (n <=? 122))%N then ascii_of_N (n - 32) else c.

(** [s.replace(/\b\w/g, c => c.toUpperCase())]: a word character that
    follows no word character is turned to its capital.  [inWord] says
    whether the character before is a word character. *)
Fixpoint capitalizeFrom (inWord : bool) (s : string) : string :=
  match s with
  | EmptyString => EmptyString
  | String c r =>
      String (if isWordChar c && negb inWord then toUpperCase c else c)
        (capitalizeFrom (isWordChar c) r)
  end.

Definition capitalizeWords (s : string) : string := capitalizeFrom false s.

(** A string by its UTF-16 code units, which is how a regular expression
    without the [u] flag reads it. *)
Definition units : Type := list N.

(** The code units of a string of ASCII. *)
Definition units_of (s : string) : units :=
  map N_of_ascii (list_ascii_of_string s).

(** [\s]: the white space and the line terminators of ECMAScript: tab,
    line feed, vertical tab, form feed, carriage return, space, no-break
    space, U+1680, U+2000 to U+200A, U+2028, U+2029, U+202F, U+205F,
    U+3000 and U+FEFF. *)
Definition isSpace (u : N) : bool :=
  (existsb (N.eqb u)
     [9; 10; 11; 12; 13; 32; 160; 5760; 8232; 8233; 8239; 8287; 12288; 65279]
   || ((8192 <=? u) && (u <=? 8202)))%N.

(** [s.replace(/\s+/g, '_')]: every maximal run of white space gives one
    underscore (code unit 95).  [inRun] says whether the code unit before
    is white space. *)
Fixpoint underscoreFrom (inRun : bool) (s : units) : units :=
  match s with
  | [] => []
  | u :: r =>
      if isSpace u
      then (if inRun then underscoreFrom true r
            else 95%N :: underscoreFrom true r)
      else u :: underscoreFrom false r
  end.

Definition underscoreSpaces (s : units) : units := underscoreFrom false s.

(** The name [handleDownload] saves the file under, for a candidate name
    given by its code units. *)
Definition downloadName (candidateName : units) : units :=
  (units_of "IELTS_Pro_Certificate_" ++ underscoreSpaces candidateName
     ++ units_of ".pdf")%list.

(** [ScoreCircle]: [cefr && cefr !== 'N/A' ? cefr : 'B1'] *)
Definition displayCefr (cefr : string) : string :=
  if negb (String.eqb cefr "") && negb (String.eqb cefr "N/A") then cefr
  else "B1".

End CertificateView.

(** ** [localStorage], read *)
Module Storage.


End Storage.

(** ** Vocabulary of the statements about dates and ranges *)
Module Wording.

Definition no_space (s : string) : bool :=
  forallb (fun c => negb (Ascii.eqb c " ")) (list_ascii_of_string s).

(** No code unit is white space; every code unit is; the first one, if
    there is one, is not. *)
Definition spaceless (s : CertificateView.units) : bool :=
  forallb (fun u => negb (CertificateView.isSpace u)) s.

Definition all_space (s : CertificateView.units) : bool :=
  forallb CertificateView.isSpace s.

Definition starts_a_word (s : CertificateView.units) : bool :=
  match s with
  | [] => true
  | u :: _ => negb (CertificateView.isSpace u)
  end.

(** The ending of the ordinal of a day of the month. *)
Definition ordinal (d : Z) : string :=
  if existsb (Z.eqb d) [1; 21; 31] then "st"
  else if existsb (Z.eqb d) [2; 22] then "nd"
  else if existsb (Z.eqb d) [3; 23] then "rd"
  else "th".

Definition month_full (m : Z) : string :=
  nth (Z.to_nat (m - 1))
    ["January"; "February"; "March"; "April"; "May"; "June"; "July";
     "August"; "September"; "October"; "November"; "December"] "".

(** The display label that goes with a level. *)
Definition label (l : Band.Level) : string :=
  match l with
  | Band.C2 => "Proficient" | Band.C1 => "Advanced"
  | Band.B2 => "Upper Intermediate" | Band.B1 => "Intermediate"
  | Band.A2 => "Elementary" | Band.A1 => "Beginner" | Band.A0 => "Novice"
  end.

(** The least and the greatest score of the display range of a level. *)
Definition bounds (l : Band.Level) : Z * Z :=
  match l with
  | Band.C2 => (86, 100) | Band.C1 => (71, 85) | Band.B2 => (51, 70)
  | Band.B1 => (41, 50) | Band.A2 => (21, 40) | Band.A1 => (11, 20)
  | Band.A0 => (0, 10)
  end.

(** A score column within 0..100, or null. *)
Definition in_range (x : option Js.number) : Prop :=
  match x with
  | Some q => (0 <= q /\ q <= 100)%Q
  | None => True
  end.

(** The columns of a row that say which payment it is. *)
Definition identity (r : Ledger.Row) : string * Z * string * string :=
  (Ledger.user_id r, Ledger.amount r, Ledger.purpose r, Ledger.reference r).

(** The events of a run in which the gateway reports success. *)
Definition is_success (e : PaymentModal.Event) : bool :=
  match e with
  | PaymentModal.GatewaySuccess _ => true
  | _ => false
  end.


(** The configured key opens with one of the two accepted prefixes. *)
Definition key_accepted (key : option string) : bool :=
  String.prefix "pk_live" (Js.or_else key "")
  || String.prefix "pk_test" (Js.or_else key "").

End Wording.

(** * Properties *)

Module JsFacts.

Import Js.

Lemma ge_integers (a b : Z) : ge (inject_Z a) (inject_Z b) = (b <=? a).
Proof.
  unfold ge, Qle_bool; cbn.
  now rewrite !Z.mul_1_r.
Qed.

Lemma Math_round_quarter (n : Z) : Math_round (inject_Z n / 4)%Q = (n + 2) / 4.
Proof.
  unfold Math_round, Qfloor, Qdiv, Qmult, Qinv, Qplus; cbn.
  replace (n * 1 * 2 + 4) with ((n + 2) * 2) by lia.
  change 8 with (4 * 2).
  apply Z.div_mul_cancel_r; lia.
Qed.

Lemma Math_round_integer (n : Z) : Math_round (inject_Z n) = n.
Proof.
  unfold Math_round, Qfloor, Qplus; cbn.
  replace (n * 2 + 1) with (1 + n * 2) by lia.
  rewrite Z.div_add by lia. reflexivity.
Qed.

End JsFacts.

Module CertificateProps.

Import Js Certificate Band.

Lemma scoreToCefr_of_score (z : Z) : scoreToCefr (inject_Z z) = code (of_score z).
Proof.
  unfold scoreToCefr, of_score.
  change 86%Q with (inject_Z 86); change 71%Q with (inject_Z 71);
  change 51%Q with (inject_Z 51); change 41%Q with (inject_Z 41);
  change 21%Q with (inject_Z 21); change 11%Q with (inject_Z 11).
  rewrite !JsFacts.ge_integers.
  repeat match goal with |- context [?a <=? ?b] => destruct (a <=? b) end;
    reflexivity.
Qed.

Lemma getScoreRange_of_score (z : Z) : getScoreRange (inject_Z z) = range (of_score z).
Proof.
  unfold getScoreRange, of_score.
  change 86%Q with (inject_Z 86); change 71%Q with (inject_Z 71);
  change 51%Q with (inject_Z 51); change 41%Q with (inject_Z 41);
  change 21%Q with (inject_Z 21); change 11%Q with (inject_Z 11).
  rewrite !JsFacts.ge_integers.
  repeat match goal with |- context [?a <=? ?b] => destruct (a <=? b) end;
    reflexivity.
Qed.

Lemma code_injective (l l' : Level) : code l = code l' -> l = l'.
Proof. destruct l, l'; cbn; intros H; try reflexivity; discriminate H. Qed.

Lemma range_injective (l l' : Level) : range l = range l' -> l = l'.
Proof. destruct l, l'; cbn; intros H; try reflexivity; discriminate H. Qed.

(** Splits on every threshold test of a goal about [of_score]. *)
Ltac thresholds :=
  unfold of_score;
  repeat match goal with
         | |- context [?a <=? ?b] => destruct (Z.leb_spec a b)
         end.

Lemma of_score_monotone (a b : Z) : a <= b -> (rank (of_score a) <= rank (of_score b))%nat.
Proof. intros Hab. thresholds; cbn; lia. Qed.

(** C4.  The classifier meets the boundary table: 10 is A0, 11 and 20 are
    A1, 21 and 40 are A2, 41 and 50 are B1, 51 and 70 are B2, 71 and 85
    are C1, and 86 is C2. *)
Theorem boundary_table :
  scoreToCefr 10%Q = "A0" /\ scoreToCefr 11%Q = "A1" /\ scoreToCefr 20%Q = "A1"
  /\ scoreToCefr 21%Q = "A2" /\ scoreToCefr 40%Q = "A2" /\ scoreToCefr 41%Q = "B1"
  /\ scoreToCefr 50%Q = "B1" /\ scoreToCefr 51%Q = "B2" /\ scoreToCefr 70%Q = "B2"
  /\ scoreToCefr 71%Q = "C1" /\ scoreToCefr 85%Q = "C1" /\ scoreToCefr 86%Q = "C2".
Proof. repeat split; reflexivity. Qed.

(** C7.  The classifier is total over the integers and monotonic: every
    integer has exactly one level; for [a <= b] the level of [a] is never
    a higher band than the level of [b]; a score below 0 is A0 and a score
    above 100 is C2. *)
Theorem scoreToCefr_total_monotonic (a b : Z) :
  (exists! l : Level, scoreToCefr (inject_Z a) = code l)
  /\ (a <= b ->
      forall la lb : Level,
        scoreToCefr (inject_Z a) = code la ->
        scoreToCefr (inject_Z b) = code lb ->
        (rank la <= rank lb)%nat)
  /\ (a < 0 -> scoreToCefr (inject_Z a) = code A0)
  /\ (100 < a -> scoreToCefr (inject_Z a) = code C2).
Proof.
  rewrite !scoreToCefr_of_score.
  split; [| split; [| split]].
  - exists (of_score a). split; [reflexivity |].
    intros l' H. now apply code_injective.
  - intros Hab la lb Ha Hb.
    apply code_injective in Ha, Hb. subst la lb.
    now apply of_score_monotone.
  - intros Hneg. f_equal. thresholds; try reflexivity; lia.
  - intros Hbig. f_equal. thresholds; try reflexivity; lia.
Qed.

Lemma scoreToCefr_total_monotonic_witness :
  scoreToCefr (inject_Z (-5)) = "A0" /\ scoreToCefr (inject_Z 120) = "C2"
  /\ (rank A0 <= rank C2)%nat.
Proof.
  destruct (scoreToCefr_total_monotonic (-5) 120) as (_ & Hmono & Hlow & _).
  destruct (scoreToCefr_total_monotonic 120 120) as (_ & _ & _ & Hhigh).
  split; [apply Hlow; lia |].
  split; [apply Hhigh; lia |].
  apply Hmono; [lia | reflexivity | reflexivity].
Defined.

(** C10.  For every integer score, [getScoreRange] returns the display
    range of the band that [scoreToCefr] assigns, and the two functions
    split the integers into the same seven classes. *)
Theorem getScoreRange_agrees_with_scoreToCefr (a b : Z) :
  (exists l : Level,
      scoreToCefr (inject_Z a) = code l /\ getScoreRange (inject_Z a) = range l)
  /\ String.eqb (scoreToCefr (inject_Z a)) (scoreToCefr (inject_Z b))
     = String.eqb (getScoreRange (inject_Z a)) (getScoreRange (inject_Z b)).
Proof.
  rewrite !scoreToCefr_of_score, !getScoreRange_of_score.
  split.
  - now exists (of_score a).
  - destruct (of_score a), (of_score b); reflexivity.
Qed.

Lemma overall_eq (l r w s : Z) : overall l r w s = (l + r + w + s + 2) / 4.
Proof. unfold overall. apply JsFacts.Math_round_quarter. Qed.

(** C5.  The overall score is the mean of the four skill scores rounded
    to the nearest integer; a fractional part of exactly one half goes
    upward, which for scores that are not negative is away from zero;
    (70, 80, 90, 60) gives 75 and (0, 0, 0, 1) gives 0. *)
Theorem overall_rounds_half_up (l r w s : Z) :
  let sum := l + r + w + s in
  let t := overall l r w s in
  sum - 2 < 4 * t <= sum + 2
  /\ (sum mod 4 = 2 -> 4 * t = sum + 2)
  /\ (0 <= sum -> sum mod 4 = 2 -> Z.abs sum < Z.abs (4 * t))
  /\ overall 70 80 90 60 = 75
  /\ overall 0 0 0 1 = 0.
Proof.
  cbv zeta. rewrite !overall_eq.
  repeat split; try reflexivity;
    intros; Z.div_mod_to_equations; lia.
Qed.

Lemma overall_rounds_half_up_witness :
  4 * overall 1 1 0 0 = 2 + 2 /\ Z.abs 2 < Z.abs (4 * overall 1 1 0 0).
Proof.
  destruct (overall_rounds_half_up 1 1 0 0) as (_ & Hup & Haway & _).
  split; [apply Hup; reflexivity | apply Haway; [lia | reflexivity]].
Defined.

(** C6.  The builder takes a skill score that is null for 0 before it
    rounds, computes the overall score from the four rounded scores, and
    classifies all five; the attempt with scores (null, 55, 55, 55) gets
    listening 0, overall score 41 and overall level B1. *)
Theorem builder_scores (uid : string) (a : Attempt)
    (name cert stored rid : option string) (tz : Z -> Z) (st : State) :
  let src := mkSources (Some uid) (Data a) name cert stored rid tz in
  exists cd : CertificateData,
    fetchCertificateData src st = mkState (Some cd) false
    /\ scores cd
       = mkScores (Math_round (nullish (listening_score a) 0%Q))
                  (Math_round (nullish (reading_score a) 0%Q))
                  (Math_round (nullish (writing_score a) 0%Q))
                  (Math_round (nullish (speaking_score a) 0%Q))
    /\ (forall x y z t,
          listening (scores (buildCertificateData src (mkAttempt None x y z t))) = 0
          /\ reading (scores (buildCertificateData src (mkAttempt x None y z t))) = 0
          /\ writing (scores (buildCertificateData src (mkAttempt x y None z t))) = 0
          /\ speaking (scores (buildCertificateData src (mkAttempt x y z None t))) = 0)
    /\ totalScore cd
       = overall (listening (scores cd)) (reading (scores cd))
                 (writing (scores cd)) (speaking (scores cd))
    /\ cefr cd
       = mkCefr (scoreToCefr (inject_Z (totalScore cd)))
                (scoreToCefr (inject_Z (listening (scores cd))))
                (scoreToCefr (inject_Z (reading (scores cd))))
                (scoreToCefr (inject_Z (writing (scores cd))))
                (scoreToCefr (inject_Z (speaking (scores cd))))
    /\ (let cd' :=
          buildCertificateData src
            (mkAttempt None (Some 55%Q) (Some 55%Q) (Some 55%Q) (test_date a)) in
        listening (scores cd') = 0
        /\ totalScore cd' = 41
        /\ cefr_overall (cefr cd') = "B1").
Proof.
  cbv zeta.
  exists (buildCertificateData
            (mkSources (Some uid) (Data a) name cert stored rid tz) a).
  repeat split; reflexivity.
Qed.

(** The identifier falls back on the first eight characters of the
    attempt's id, and the name on the stored name, then on "Candidate". *)
Lemma builder_fallbacks (a : Attempt) (tz : Z -> Z) :
  let cd :=
    buildCertificateData
      (mkSources (Some "u") (Data a) None None None (Some "abc12345-xyz") tz) a in
  certificateId cd = "CERT-abc12345" /\ candidateName cd = "Candidate".
Proof. split; reflexivity. Qed.

(** Without a session, or when the attempt cannot be read, nothing is
    set: the page shows its not-found state. *)
Lemma builder_record_unavailable (src : Sources) (msg : string) :
  certificateData
    (fetchCertificateData
       (mkSources (session src) (Error msg) (profile_full_name src)
          (cert_certificate_id src) (stored_candidateName src) (id src)
          (LocalTZA src))
       (mkState None true)) = None.
Proof. unfold fetchCertificateData; cbn. now destruct (session src). Qed.

End CertificateProps.

Module DateProps.

Import Js JsDate Certificate DatePattern.

Lemma civil_from_days_bounds (n : Z) :
  1 <= month (civil_from_days n) <= 12 /\ 1 <= date (civil_from_days n) <= 31.
Proof.
  unfold civil_from_days; cbn [month date].
  set (z := n + 719468).
  assert (Hdoe : 0 <= z - z / 146097 * 146097 <= 146096)
    by (Z.div_mod_to_equations; lia).
  set (doe := z - z / 146097 * 146097) in *. clearbody doe. clear z.
  set (yoe := (doe - doe / 1460 + doe / 36524 - doe / 146096) / 365).
  assert (Hdoy : 0 <= doe - (365 * yoe + yoe / 4 - yoe / 100) <= 365)
    by (subst yoe; Z.div_mod_to_equations; lia).
  set (doy := doe - (365 * yoe + yoe / 4 - yoe / 100)) in *. clearbody doy.
  destruct (Z.ltb_spec ((5 * doy + 2) / 153) 10);
    Z.div_mod_to_equations; lia.
Qed.

(** The conversion to a calendar date loses nothing: the day number is
    recovered from the date. *)
Lemma days_from_civil_from_days (n : Z) : days_from_civil (civil_from_days n) = n.
Proof.
  unfold days_from_civil, civil_from_days; cbn [year month date].
  set (z := n + 719468).
  assert (Hdoe : 0 <= z - z / 146097 * 146097 <= 146096)
    by (Z.div_mod_to_equations; lia).
  assert (Hz : n = z / 146097 * 146097 + (z - z / 146097 * 146097) - 719468)
    by lia.
  set (era := z / 146097) in *.
  set (doe := z - era * 146097) in *. clearbody doe era. clear z. subst n.
  set (yoe := (doe - doe / 1460 + doe / 36524 - doe / 146096) / 365).
  assert (Hyoe : 0 <= yoe <= 399) by (subst yoe; Z.div_mod_to_equations; lia).
  assert (Hdoy : 0 <= doe - (365 * yoe + yoe / 4 - yoe / 100) <= 365)
    by (subst yoe; Z.div_mod_to_equations; lia).
  assert (Hd : doe = 365 * yoe + yoe / 4 - yoe / 100
                     + (doe - (365 * yoe + yoe / 4 - yoe / 100))) by lia.
  set (doy := doe - (365 * yoe + yoe / 4 - yoe / 100)) in *. clearbody doy yoe.
  set (mp := (5 * doy + 2) / 153).
  assert (Hmp : 0 <= mp <= 11) by (subst mp; Z.div_mod_to_equations; lia).
  assert (Hmm : (153 * mp + 2) / 5 + (doy - (153 * mp + 2) / 5 + 1) - 1 = doy)
    by lia.
  assert (Hera : (yoe + era * 400) / 400 = era)
    by (Z.div_mod_to_equations; lia).
  destruct (Z.ltb_spec mp 10).
  - destruct (Z.leb_spec (mp + 3) 2); [lia |].
    destruct (Z.ltb_spec 2 (mp + 3)); [| lia].
    replace (mp + 3 - 3) with mp by lia. rewrite Hmm, Hera.
    replace (yoe + era * 400 - era * 400) with yoe by lia. lia.
  - destruct (Z.leb_spec (mp - 9) 2); [| lia].
    destruct (Z.ltb_spec 2 (mp - 9)); [lia |].
    replace (mp - 9 + 9) with mp by lia. rewrite Hmm.
    replace (yoe + era * 400 + 1 - 1) with (yoe + era * 400) by lia.
    rewrite Hera.
    replace (yoe + era * 400 - era * 400) with yoe by lia. lia.
Qed.

(** A month in range prints as a name that starts with a letter. *)
Lemma month_short_letter (m : Z) :
  1 <= m <= 12 ->
  exists c rest, month_short m = String c rest /\ is_digit c = false.
Proof.
  intros Hm. unfold month_short.
  assert (Hk : (Z.to_nat (m - 1) < 12)%nat) by lia.
  generalize dependent (Z.to_nat (m - 1)). intros k Hk.
  do 12 (destruct k as [| k]; [cbn; eexists _, _; split; reflexivity |]).
  lia.
Qed.

(** Whatever the attempt's date, the string the builder stores does not
    start with a digit, so it never has the shape [DD Mon YYYY]. *)
Lemma testDate_never_day_first (tz : Z -> Z) (d : TimeValue) :
  DD_Mon_YYYY (toLocaleDateString_enUS tz d) = false.
Proof.
  destruct d as [t |]; [| reflexivity].
  unfold toLocaleDateString_enUS, local_civil.
  destruct (civil_from_days_bounds (Day (t + tz t))) as [Hm _].
  destruct (month_short_letter _ Hm) as (c & rest & -> & Hc).
  unfold DD_Mon_YYYY. cbn [append list_ascii_of_string].
  destruct (list_ascii_of_string _) as [| d2 [| s1 [| m1 [| m2 [| m3
    [| s2 [| y1 [| y2 [| y3 [| y4 [| ? ?]]]]]]]]]]]; try reflexivity.
  now rewrite Hc.
Qed.

(** C9.  The attempt taken on 5 March 2024 (time value 1709596800000, in
    a host on UTC) gets the test date "Mar 05, 2024", month first, and not
    "05 Mar 2024"; [formatAwardDate], which reads that string day first,
    turns it into "NaNth day of 05,, 2024", while it turns "05 Mar 2024"
    into "5th day of March, 2024". *)
Theorem testDate_is_month_first :
  let a := mkAttempt None None None None (Some 1709596800000) in
  let cd := buildCertificateData
              (mkSources (Some "u") (Data a) None None None None (fun _ => 0)) a in
  let today := mkCivil 2024 3 6 in
  testDate cd = "Mar 05, 2024"
  /\ DD_Mon_YYYY (testDate cd) = false
  /\ DD_Mon_YYYY "05 Mar 2024" = true
  /\ formatAwardDate today (testDate cd) = "NaNth day of 05,, 2024"
  /\ formatAwardDate today "05 Mar 2024" = "5th day of March, 2024".
Proof. cbv zeta. repeat split; vm_compute; reflexivity. Qed.

End DateProps.

Module LedgerProps.

Import Ledger.

Lemma update_row_reference (ref st : string) (resp : Json.value) (r : Row) :
  reference (update_row ref st resp r) = reference r.
Proof. unfold update_row. now destruct (String.eqb (reference r) ref). Qed.

Lemma update_row_hit (ref st : string) (resp : Json.value) (r : Row) :
  reference r = ref ->
  status (update_row ref st resp r) = st
  /\ paystack_response (update_row ref st resp r) = resp.
Proof.
  intros <-. unfold update_row. rewrite String.eqb_refl. now split.
Qed.

Lemma update_row_miss (ref st : string) (resp : Json.value) (r : Row) :
  reference r <> ref -> update_row ref st resp r = r.
Proof.
  intros H. unfold update_row.
  destruct (String.eqb_spec (reference r) ref); [contradiction | reflexivity].
Qed.

Lemma update_row_idempotent (ref st : string) (resp : Json.value) (r : Row) :
  update_row ref st resp (update_row ref st resp r) = update_row ref st resp r.
Proof.
  unfold update_row at 1. rewrite update_row_reference.
  destruct (String.eqb_spec (reference r) ref) as [E | N]; [| reflexivity].
  unfold update_row. rewrite <- E, String.eqb_refl. reflexivity.
Qed.

Lemma update_idempotent (o : Outcome) (ref st : string) (resp : Json.value) (l : t) :
  update o ref st resp (update o ref st resp l) = update o ref st resp l.
Proof.
  destruct o; cbn; [| reflexivity].
  rewrite map_map. apply map_ext. intros r. apply update_row_idempotent.
Qed.

(** An update on a reference that no row has changes nothing. *)
Lemma update_absent (o : Outcome) (ref st : string) (resp : Json.value) (l : t) :
  ~ present ref l -> update o ref st resp l = l.
Proof.
  intros Habs. destruct o; cbn; [| reflexivity].
  induction l as [| r l IH]; cbn; [reflexivity |].
  rewrite update_row_miss.
  - f_equal. apply IH. intros (r' & Hin & Href).
    apply Habs. exists r'. split; [now right | assumption].
  - intros Href. apply Habs. exists r. split; [now left | assumption].
Qed.

Lemma update_present (ref st : string) (resp : Json.value) (l : t) :
  present ref l -> present ref (update Ok ref st resp l).
Proof.
  intros (r & Hin & Href). exists (update_row ref st resp r). split.
  - cbn. now apply in_map.
  - now rewrite update_row_reference.
Qed.

Lemma update_status (ref st : string) (resp : Json.value) (l : t) (r : Row) :
  In r (update Ok ref st resp l) -> reference r = ref ->
  status r = st /\ paystack_response r = resp.
Proof.
  cbn. intros Hin Href. apply in_map_iff in Hin as (r0 & <- & _).
  rewrite update_row_reference in Href. now apply update_row_hit.
Qed.

End LedgerProps.

Module VerifyPaymentProps.

Import Ledger VerifyPayment LedgerProps.

Lemma stored_status_verified (s : option Json.value) :
  stored_status s = "verified" <-> s = Some (Json.Str "success").
Proof.
  unfold stored_status. split.
  - destruct s as [[| | | str | |] |]; try discriminate.
    destruct (String.eqb_spec str "success"); [now subst | discriminate].
  - intros ->. reflexivity.
Qed.

Lemma stored_status_failed (s : option Json.value) :
  stored_status s = "failed" <-> s <> Some (Json.Str "success").
Proof.
  unfold stored_status. split.
  - intros H ->. discriminate H.
  - destruct s as [[| | | str | |] |]; try reflexivity.
    destruct (String.eqb_spec str "success"); [now subst | reflexivity].
Qed.

(** On every path that does not get to the update, the ledger is left as
    it was; on the path that does, it is the update's result. *)
Lemma handler_ledger (w : World) (req : Request) (l : Ledger.t) :
  snd (handler w req l) = l
  \/ exists ref v,
       req = Parsed (Some ref) /\ gateway w ref = Some v
       /\ snd (handler w req l)
          = update (store w) ref (stored_status (reported_status v)) (json v) l.
Proof.
  unfold handler.
  destruct (_ || _); [now left |].
  destruct req as [| [ref |]]; [now left | | now left].
  destruct (falsy ref); [now left |].
  destruct (gateway w ref) as [v |] eqn:Hgw; [| now left].
  destruct (negb (ok v)); [now left |].
  right. exists ref, v. repeat split; [assumption |].
  now destruct (store w).
Qed.

(** Invoked again in the same world, the handler leaves the ledger as
    the first invocation left it. *)
Lemma handler_idempotent (w : World) (req : Request) (l : Ledger.t) :
  snd (handler w req (snd (handler w req l))) = snd (handler w req l).
Proof.
  destruct (handler_ledger w req l) as [E | (ref & v & Hreq & Hgw & E)].
  - now rewrite E.
  - rewrite E.
    destruct (handler_ledger w req (update (store w) ref
                (stored_status (reported_status v)) (json v) l))
      as [E' | (ref' & v' & Hreq' & Hgw' & E')]; [assumption |].
    rewrite E'. rewrite Hreq in Hreq'. injection Hreq' as <-.
    rewrite Hgw in Hgw'. injection Hgw' as <-.
    apply update_idempotent.
Qed.

(** The invocations that get to the update: the settings are there, the
    reference is not empty, and the gateway's answer [v] is accepted. *)
Section ReachingTheUpdate.

Variables (w : World) (ref : string) (v : Verify).
Hypothesis settings : configured (env w) = true.
Hypothesis nonempty : ref <> "".
Hypothesis answered : gateway w ref = Some v.
Hypothesis accepted : ok v = true.

Lemma handler_reaches_update (l : Ledger.t) :
  handler w (Parsed (Some ref)) l
  = (match store w with
     | Failed message => Returned (mkResponse (Text message) 500)
     | Ok => answer_200 v
     end,
     update (store w) ref (stored_status (reported_status v)) (json v) l).
Proof.
  unfold handler. pose proof settings as Hcfg. unfold configured in Hcfg.
  apply negb_true_iff in Hcfg. rewrite Hcfg.
  unfold falsy at 1. destruct (String.eqb_spec ref ""); [contradiction |].
  rewrite answered, accepted. cbn [negb].
  unfold answer_200, reported_status, reported_amount.
  now destruct (store w).
Qed.

(** C3.  For a reference that the ledger has, when the handler gets to
    the update (settings there, gateway answer accepted, store without
    error), every row of the reference is stored with status [verified]
    if and only if the gateway reports "success", and with [failed] for
    any other report; the other rows stay as they are. *)
Theorem reconcile_stores_gateway_status (l : Ledger.t) :
  store w = Ok -> present ref l ->
  let l' := snd (handler w (Parsed (Some ref)) l) in
  present ref l'
  /\ (forall r, In r l' -> reference r = ref ->
        (status r = "verified" <-> reported_status v = Some (Json.Str "success"))
        /\ (reported_status v <> Some (Json.Str "success") -> status r = "failed")
        /\ paystack_response r = json v)
  /\ l' = map (update_row ref (stored_status (reported_status v)) (json v)) l.
Proof.
  intros Hst Hpres. cbv zeta.
  rewrite handler_reaches_update, Hst.
  cbn [snd]. split; [now apply update_present |]. split; [| reflexivity].
  intros r Hin Hr.
  destruct (update_status _ _ _ _ _ Hin Hr) as [Hs Hp].
  rewrite Hs. split; [apply stored_status_verified |].
  split; [apply stored_status_failed | assumption].
Qed.

End ReachingTheUpdate.

(** C2, as the code has it.  For a reference that no row of the ledger
    has, the handler leaves the ledger as it is; it does not look the
    reference up, and when the gateway accepts it the caller gets the
    answer with HTTP status 200 and the gateway's status and amount. *)
Theorem unknown_reference_no_mutation
    (w : World) (req : Request) (ref : string) (l : Ledger.t) :
  req = Parsed (Some ref) -> ~ present ref l ->
  snd (handler w req l) = l
  /\ (forall v, configured (env w) = true -> ref <> "" ->
        gateway w ref = Some v -> ok v = true -> store w = Ok ->
        fst (handler w req l) = answer_200 v).
Proof.
  intros -> Habs. split.
  - destruct (handler_ledger w (Parsed (Some ref)) l)
      as [E | (ref' & v & Hreq & _ & E)]; [assumption |].
    injection Hreq as <-. rewrite E. now apply update_absent.
  - intros v Hcfg Href Hgw Hok Hst.
    rewrite (handler_reaches_update w ref v Hcfg Href Hgw Hok l).
    now rewrite Hst.
Qed.

Lemma sample_reference_absent : ~ present "4242" Sample.ledger.
Proof. intros (r & [<- | []] & H). discriminate H. Qed.

Lemma sample_reference_present : present "1700000000000" Sample.ledger.
Proof. eexists. split; [now left | reflexivity]. Qed.

(** C2, as the specification has it, fails: for the reference "4242",
    which the sample ledger does not have, the handler answers with HTTP
    status 200 and the gateway's status and amount, not with an error. *)
Lemma unknown_reference_answered_200 :
  ~ present "4242" Sample.ledger
  /\ fst (handler Sample.world (Parsed (Some "4242")) Sample.ledger)
     = Returned
         (mkResponse
            (Stringified
               (Json.Obj [("status", Json.Str "success");
                          ("amount", Json.Num 250000%Q)]))
            200)
  /\ ~ is_error (fst (handler Sample.world (Parsed (Some "4242")) Sample.ledger)).
Proof.
  split; [exact sample_reference_absent |].
  split; [reflexivity |].
  cbn. lia.
Qed.

Lemma unknown_reference_no_mutation_witness :
  snd (handler Sample.world (Parsed (Some "4242")) Sample.ledger) = Sample.ledger
  /\ fst (handler Sample.world (Parsed (Some "4242")) Sample.ledger)
     = answer_200 Sample.verified.
Proof.
  destruct (unknown_reference_no_mutation Sample.world (Parsed (Some "4242"))
              "4242" Sample.ledger eq_refl sample_reference_absent) as [Hl Hr].
  split; [exact Hl |].
  apply Hr; [reflexivity | discriminate | reflexivity | reflexivity | reflexivity].
Defined.

Lemma reconcile_stores_gateway_status_witness :
  present "1700000000000"
    (snd (handler Sample.world (Parsed (Some "1700000000000")) Sample.ledger))
  /\ map status
       (snd (handler Sample.world (Parsed (Some "1700000000000")) Sample.ledger))
     = ["verified"].
Proof.
  destruct (reconcile_stores_gateway_status Sample.world "1700000000000"
              Sample.verified eq_refl ltac:(discriminate) eq_refl eq_refl
              Sample.ledger eq_refl sample_reference_present)
    as (Hp & _ & Hl).
  split; [exact Hp |].
  rewrite Hl. reflexivity.
Defined.

Lemma stored_status_cases (s : option Json.value) :
  stored_status s = "verified" \/ stored_status s = "failed".
Proof.
  unfold stored_status. destruct s as [[| | | str | |] |]; auto.
  destruct (String.eqb str "success"); auto.
Qed.

Lemma update_row_status_again (ref st : string) (resp resp' : Json.value) (r : Row) :
  status (update_row ref st resp' (update_row ref st resp r))
  = status (update_row ref st resp r).
Proof.
  unfold update_row at 1. rewrite update_row_reference.
  destruct (String.eqb_spec (reference r) ref) as [E | N]; [| reflexivity].
  cbn. unfold update_row. now rewrite E, String.eqb_refl.
Qed.

(** C8, as the specification has it, fails: the reference of the sample
    ledger is verified by a first invocation, to which the gateway reports
    "success"; a second invocation, to which the gateway reports
    "abandoned", does not confirm that state: the row is stored
    [failed]. *)
Lemma verified_reference_turns_failed :
  let l1 := snd (handler Sample.world (Parsed (Some "1700000000000")) Sample.ledger) in
  let l2 := snd (handler Sample.world_abandoned (Parsed (Some "1700000000000")) l1) in
  present "1700000000000" l1
  /\ map status l1 = ["verified"]
  /\ map status l2 = ["failed"].
Proof.
  cbv zeta. split; [| split; reflexivity].
  eexists. split; [left; reflexivity | reflexivity].
Qed.

(** C8, as the code has it.  Reconcile stores the status of the latest
    report of the gateway, whatever was stored before.  For a reference
    that the ledger has and two invocations in a row that get to the
    update, each with its own answer of the gateway: after each
    invocation the rows of the reference are [verified] exactly when that
    invocation's report is "success" and [failed] exactly when it is
    not, so "success" both times leaves them [verified] after each; a
    reference already [verified] or [failed] keeps that status exactly
    when the new report maps to it; and with the same body of the answer
    the second invocation leaves the ledger as the first did. *)
Theorem reconcile_stores_latest_report
    (w1 w2 : World) (ref : string) (v1 v2 : Verify) (l : Ledger.t) :
  configured (env w1) = true -> gateway w1 ref = Some v1 -> ok v1 = true ->
  store w1 = Ok ->
  configured (env w2) = true -> gateway w2 ref = Some v2 -> ok v2 = true ->
  store w2 = Ok ->
  ref <> "" -> present ref l ->
  let l1 := snd (handler w1 (Parsed (Some ref)) l) in
  let l2 := snd (handler w2 (Parsed (Some ref)) l1) in
  let success := Some (Json.Str "success") in
  present ref l1 /\ present ref l2
  /\ (forall r, In r l1 -> reference r = ref ->
        (status r = "verified" <-> reported_status v1 = success)
        /\ (status r = "failed" <-> reported_status v1 <> success))
  /\ (forall r, In r l2 -> reference r = ref ->
        (status r = "verified" <-> reported_status v2 = success)
        /\ (status r = "failed" <-> reported_status v2 <> success))
  /\ (reported_status v1 = success -> reported_status v2 = success ->
      (forall r, In r l1 -> reference r = ref -> status r = "verified")
      /\ (forall r, In r l2 -> reference r = ref -> status r = "verified"))
  /\ ((reported_status v1 = success <-> reported_status v2 = success) <->
      map status l2 = map status l1)
  /\ (json v2 = json v1 -> l2 = l1).
Proof.
  intros Hc1 Hg1 Hk1 Hs1 Hc2 Hg2 Hk2 Hs2 Href Hpres. cbv zeta.
  rewrite (handler_reaches_update w1 ref v1 Hc1 Href Hg1 Hk1), Hs1.
  rewrite (handler_reaches_update w2 ref v2 Hc2 Href Hg2 Hk2), Hs2.
  cbn [snd].
  set (st1 := stored_status (reported_status v1)).
  set (st2 := stored_status (reported_status v2)).
  set (l1 := update Ok ref st1 (json v1) l).
  assert (Hp1 : present ref l1) by now apply update_present.
  assert (Hrows1 : forall r, In r l1 -> reference r = ref -> status r = st1).
  { intros r Hin Hr. now destruct (update_status _ _ _ _ _ Hin Hr). }
  assert (Hrows2 : forall r, In r (update Ok ref st2 (json v2) l1) ->
                     reference r = ref -> status r = st2).
  { intros r Hin Hr. now destruct (update_status _ _ _ _ _ Hin Hr). }
  assert (Hsame : (reported_status v1 = Some (Json.Str "success")
                   <-> reported_status v2 = Some (Json.Str "success"))
                  <-> st1 = st2).
  { subst st1 st2. split.
    - intros Hiff.
      destruct (stored_status_cases (reported_status v1)) as [E1 | E1];
        rewrite E1; symmetry.
      + apply stored_status_verified, Hiff, stored_status_verified, E1.
      + apply stored_status_failed. intros E2.
        apply Hiff, stored_status_verified in E2. congruence.
    - intros E. rewrite <- !stored_status_verified, E. reflexivity. }
  split; [assumption |].
  split; [now apply update_present |].
  split.
  { intros r Hin Hr. rewrite (Hrows1 r Hin Hr).
    split; [apply stored_status_verified | apply stored_status_failed]. }
  split.
  { intros r Hin Hr. rewrite (Hrows2 r Hin Hr).
    split; [apply stored_status_verified | apply stored_status_failed]. }
  split.
  { intros E1 E2. split; intros r Hin Hr.
    - rewrite (Hrows1 r Hin Hr). now apply stored_status_verified.
    - rewrite (Hrows2 r Hin Hr). now apply stored_status_verified. }
  split.
  - rewrite Hsame. split.
    + intros <-. subst l1. cbn [update]. rewrite !map_map.
      apply map_ext. intros r. apply update_row_status_again.
    + intros Hmap. destruct Hpres as (r & Hin & Hr).
      assert (H2 : status (update_row ref st2 (json v2)
                             (update_row ref st1 (json v1) r)) = st2).
      { apply update_row_hit. now rewrite update_row_reference. }
      assert (H1 : status (update_row ref st1 (json v1) r) = st1)
        by now apply update_row_hit.
      rewrite <- H1, <- H2.
      subst l1. cbn [update] in Hmap. rewrite !map_map in Hmap.
      symmetry. exact (proj1 map_ext_in_iff Hmap r Hin).
  - intros Ej. subst st1 st2 l1. unfold reported_status. rewrite Ej.
    apply update_idempotent.
Qed.

Lemma reconcile_stores_latest_report_witness :
  let l1 := snd (handler Sample.world (Parsed (Some "1700000000000")) Sample.ledger) in
  let l2 := snd (handler Sample.world_again (Parsed (Some "1700000000000")) l1) in
  (forall r, In r l1 -> reference r = "1700000000000" -> status r = "verified")
  /\ (forall r, In r l2 -> reference r = "1700000000000" -> status r = "verified")
  /\ map status l2 = map status l1.
Proof.
  destruct (reconcile_stores_latest_report Sample.world Sample.world_again
              "1700000000000" Sample.verified Sample.verified_again Sample.ledger
              eq_refl eq_refl eq_refl eq_refl eq_refl eq_refl eq_refl eq_refl
              ltac:(discriminate) sample_reference_present)
    as (_ & _ & _ & _ & Hboth & Hsame & _).
  destruct (Hboth eq_refl eq_refl) as [H1 H2].
  split; [exact H1 |]. split; [exact H2 |].
  apply Hsame. split; reflexivity.
Defined.

(** The stored status follows the latest report: a row left [failed] is
    stored [verified] by a later invocation to which the gateway reports
    "success". *)
Lemma reconcile_follows_latest_report :
  let failed := [mkRow "user-1" 250000 "reattempt" "1700000000000" "failed" Json.Null] in
  map status (snd (handler Sample.world (Parsed (Some "1700000000000")) failed))
  = ["verified"].
Proof. reflexivity. Qed.

End VerifyPaymentProps.

Module PaymentModalProps.

Import Ledger VerifyPayment PaymentModal LedgerProps VerifyPaymentProps.

(** The decimal string of an integer reads back as that integer. *)
Lemma toString_parses (n : Z) :
  option_map Z.of_int (NilZero.int_of_string (Js.toString n)) = Some n.
Proof.
  unfold Js.toString.
  rewrite NilZero.isi.
  - cbn. now rewrite DecimalZ.of_to.
  - destruct n; cbn; try discriminate.
    intros [= H]. now apply DecimalPos.Unsigned.to_uint_nonnil in H.
  - destruct n; cbn; try discriminate.
    intros [= H]. now apply DecimalPos.Unsigned.to_uint_nonnil in H.
Qed.

(** Two readings of the clock give the same reference only when they are
    the same reading. *)
Lemma toString_injective (n m : Z) : Js.toString n = Js.toString m -> n = m.
Proof.
  intros H. pose proof (toString_parses n) as Hn.
  rewrite H, toString_parses in Hn. now injection Hn.
Qed.

(** The handler writes no status but [verified] and [failed]. *)
Lemma handler_writes_no_pending (w : World) (req : Request) (l : Ledger.t) (r : Row) :
  In r (snd (handler w req l)) -> status r = "pending" -> In r l.
Proof.
  destruct (handler_ledger w req l) as [-> | (ref & v & _ & _ & ->)];
    [trivial |].
  destruct (store w); cbn; [| trivial].
  intros Hin Hst. apply in_map_iff in Hin as (r0 & <- & Hin0).
  unfold update_row in *.
  destruct (String.eqb (Ledger.reference r0) ref); [| assumption].
  cbn in Hst. unfold stored_status in Hst.
  destruct (reported_status v) as [[| | | str | |] |]; try discriminate Hst.
  destruct (String.eqb str "success"); discriminate Hst.
Qed.

(** No step of the modal stores a row with status [pending]. *)
Lemma step_writes_no_pending (h : Host) (m : Modal) (e : Event) (r : Row) :
  In r (ledger (step h m e)) -> status r = "pending" -> In r (ledger m).
Proof.
  destruct e as [now | | response |]; cbn; try trivial.
  - destruct (config m) as [c |]; [| trivial].
    destruct (canPay c); trivial.
  - destruct (config m) as [c |]; [| trivial].
    unfold handlePaymentSuccess. cbn.
    destruct (session_user_id h) as [uid |]; [| trivial].
    destruct (String.eqb uid ""); [trivial |].
    intros Hin Hst.
    apply handler_writes_no_pending in Hin; [| assumption].
    destruct (insert_outcome h); cbn in Hin; [| assumption].
    apply in_app_or in Hin as [Hin | [<- | []]]; [assumption |].
    discriminate Hst.
Qed.

Lemma run_writes_no_pending (h : Host) (es : list Event) (m : Modal) (r : Row) :
  In r (ledger (run h m es)) -> status r = "pending" -> In r (ledger m).
Proof.
  revert m. induction es as [| e es IH]; intros m; cbn; [trivial |].
  intros Hin Hst. apply (step_writes_no_pending h m e); [| assumption].
  now apply IH.
Qed.

(** C1, as the specification has it, fails: the modal is rendered at
    clock reading 1700000000000 over an empty ledger and the user presses
    the button; the gateway's checkout is open, and the ledger is still
    empty: it holds no pending row for the reference. *)
Lemma no_row_before_gateway_flow :
  let m := run Sample.host (mounted []) [Render 1700000000000; Pay] in
  option_map PaymentModal.reference (config m) = Some "1700000000000"
  /\ checkout_opened m = true
  /\ ledger m = []
  /\ ~ pending_row "1700000000000" (ledger m).
Proof.
  cbv zeta. repeat split; try reflexivity.
  intros (r & [] & _).
Qed.

(** C1, as the code has it.  The reference is the decimal string of the
    clock reading of the render, so renders at different readings get
    different references.  Nothing is stored when the modal is rendered
    and the gateway's flow begins.  When the gateway reports success, and
    a user is signed in and the store accepts the insert, the row is
    stored with that reference, amount 250000, purpose "reattempt" and
    status [success], and [verify-payment] is invoked on the reference. *)
Theorem row_persisted_on_gateway_success
    (h : Host) (m : Modal) (now : Z) (response : Json.value) (uid : string) :
  session_user_id h = Some uid -> uid <> "" -> insert_outcome h = Ok ->
  let m1 := run h m [Render now; Pay] in
  let row := mkRow uid 250000 "reattempt" (Js.toString now) "success" response in
  option_map PaymentModal.reference (config m1) = Some (Js.toString now)
  /\ (forall now', Js.toString now' = Js.toString now -> now' = now)
  /\ ledger m1 = ledger m
  /\ ledger (step h m1 (GatewaySuccess response))
     = snd (handler (backend h) (Parsed (Some (Js.toString now)))
              (ledger m ++ [row])%list).
Proof.
  intros Hs Hu Hi. cbv zeta.
  assert (Hm1 : run h m [Render now; Pay]
                = mkModal
                    (Some (paystackConfig now (userEmail h)
                             (VITE_PAYSTACK_PUBLIC_KEY h)))
                    (checkout_opened m
                     || canPay (paystackConfig now (userEmail h)
                                  (VITE_PAYSTACK_PUBLIC_KEY h)))
                    (ledger m) (client m)).
  { cbn. destruct (canPay _); cbn; [now rewrite orb_true_r |].
    now rewrite orb_false_r. }
  rewrite Hm1. cbn [config ledger option_map].
  split; [reflexivity |].
  split; [intros now'; apply toString_injective |].
  split; [reflexivity |].
  cbn. unfold handlePaymentSuccess. rewrite Hs, Hi.
  destruct (String.eqb_spec uid ""); [contradiction |].
  reflexivity.
Qed.

Lemma row_persisted_on_gateway_success_witness :
  let m1 := run Sample.host (mounted []) [Render 1700000000000; Pay] in
  ledger m1 = []
  /\ map (fun r => (Ledger.reference r, status r))
       (ledger (step Sample.host m1 (GatewaySuccess Json.Null)))
     = [("1700000000000", "verified")].
Proof.
  destruct (row_persisted_on_gateway_success Sample.host (mounted [])
              1700000000000 Json.Null "user-1")
    as (_ & _ & Hbefore & Hafter);
    [reflexivity | discriminate | reflexivity |].
  split; [exact Hbefore |].
  rewrite Hafter. reflexivity.
Defined.

End PaymentModalProps.

(** ** More on the scores and their bands *)
Module ScoreProps.

Import Js Certificate CertificateView Band Wording.

(** X1.  Every band the classifier gives has its display label, which is
    not empty, and [ScoreCircle] shows that band and no replacement.  A
    string that is no band has the empty label, unless it is the name of
    a member that the table inherits ("constructor", "toString", ...):
    for such a name the lookup gives that member and no label. *)
Theorem every_band_has_its_label (z : Z) :
  exists l : Level,
    scoreToCefr (inject_Z z) = code l
    /\ getCefrLabel (scoreToCefr (inject_Z z)) = Words (label l)
    /\ label l <> ""
    /\ displayCefr (scoreToCefr (inject_Z z)) = code l
    /\ (forall s, (forall l', s <> code l') -> ~ In s inherited ->
          getCefrLabel s = Words "")
    /\ (forall s, In s inherited -> getCefrLabel s = Member s).
Proof.
  exists (of_score z). rewrite CertificateProps.scoreToCefr_of_score.
  split; [reflexivity |].
  split; [now destruct (of_score z) |].
  split; [now destruct (of_score z) |].
  split; [now destruct (of_score z) |].
  split.
  - intros s Hs Hn. unfold getCefrLabel.
    destruct (existsb (String.eqb s) inherited) eqn:Ex.
    + exfalso. apply Hn. apply existsb_exists in Ex as (k & Hk & E).
      apply String.eqb_eq in E. now subst k.
    + repeat match goal with
             | |- context [String.eqb s ?k] =>
                 destruct (String.eqb_spec s k) as [E | _]
             end;
        try reflexivity;
        exfalso;
        first [ apply (Hs C2), E | apply (Hs C1), E | apply (Hs B2), E
              | apply (Hs B1), E | apply (Hs A2), E | apply (Hs A1), E
              | apply (Hs A0), E ].
  - intros s Hin. cbn in Hin.
    repeat (destruct Hin as [<- | Hin]; [reflexivity |]). contradiction.
Qed.

Lemma every_band_has_its_label_witness :
  getCefrLabel "D1" = Words "" /\ getCefrLabel "constructor" = Member "constructor".
Proof.
  destruct (every_band_has_its_label 0) as (l & _ & _ & _ & _ & Hother & Hmember).
  split.
  - apply Hother.
    + intros l'. destruct l'; discriminate.
    + cbn. intros H.
      repeat (destruct H as [H | H]; [discriminate H |]). contradiction.
  - apply Hmember. cbn. auto.
Defined.

(** X2.  The display range of a score is written with the least and the
    greatest score of its band, and it holds the score exactly when the
    score is from 0 to 100: a negative score is shown with "0-10" and a
    score above 100 with "86-100". *)
Theorem range_holds_score_within_0_100 (z : Z) :
  exists lo hi : Z,
    getScoreRange (inject_Z z) = toString lo ++ "-" ++ toString hi
    /\ (lo <= z <= hi <-> 0 <= z <= 100)
    /\ (z < 0 -> getScoreRange (inject_Z z) = "0-10")
    /\ (100 < z -> getScoreRange (inject_Z z) = "86-100").
Proof.
  exists (fst (bounds (of_score z))), (snd (bounds (of_score z))).
  rewrite CertificateProps.getScoreRange_of_score.
  split; [now destruct (of_score z) |].
  unfold of_score.
  repeat match goal with
         | |- context [?a <=? ?b] => destruct (Z.leb_spec a b)
         end; cbn; repeat split; intros; try lia; try reflexivity.
Qed.

Lemma range_holds_score_within_0_100_witness :
  getScoreRange (inject_Z (-3)) = "0-10" /\ getScoreRange (inject_Z 140) = "86-100".
Proof.
  destruct (range_holds_score_within_0_100 (-3)) as (lo & hi & _ & _ & Hneg & _).
  destruct (range_holds_score_within_0_100 140) as (lo' & hi' & _ & _ & _ & Hbig).
  split; [apply Hneg; lia | apply Hbig; lia].
Defined.

(** X3.  The overall score lies between the least and the greatest of the
    four skill scores. *)
Theorem overall_between_least_and_greatest (l r w s : Z) :
  Z.min (Z.min l r) (Z.min w s) <= overall l r w s <= Z.max (Z.max l r) (Z.max w s).
Proof.
  rewrite CertificateProps.overall_eq.
  Z.div_mod_to_equations; lia.
Qed.

Lemma Math_round_at_least (k : Z) (x : number) :
  (inject_Z k <= x)%Q -> k <= Math_round x.
Proof.
  intros H. unfold Math_round.
  rewrite <- (Qfloor_Z k). apply Qfloor_resp_le.
  apply Qle_trans with x; [assumption |].
  rewrite <- (Qplus_0_r x) at 1.
  apply Qplus_le_r. discriminate.
Qed.

Lemma Math_round_at_most (k : Z) (x : number) :
  (x <= inject_Z k)%Q -> Math_round x <= k.
Proof.
  intros H. unfold Math_round.
  assert (Hlt : Qfloor (x + (1 # 2)) < k + 1); [| lia].
  apply Z.nle_gt. intros Hge.
  assert (Hq : (inject_Z (k + 1) <= x + (1 # 2))%Q).
  { apply Qle_trans with (inject_Z (Qfloor (x + (1 # 2)))).
    - rewrite <- Zle_Qle. assumption.
    - apply Qfloor_le. }
  rewrite inject_Z_plus in Hq.
  assert (Hc : (inject_Z k + inject_Z 1 <= inject_Z k + (1 # 2))%Q).
  { apply Qle_trans with (x + (1 # 2))%Q; [assumption |].
    apply Qplus_le_l. assumption. }
  apply Qplus_le_r in Hc. exact (Hc eq_refl).
Qed.

(** X4.  The band of a rounded score is never below the band of the score
    itself: rounding can lift a score over a threshold (85.5 is C1, its
    rounded value 86 is C2) and never drops it under one. *)
Theorem rounding_never_lowers_band (x : number) (la lb : Level) :
  scoreToCefr x = code la ->
  scoreToCefr (inject_Z (Math_round x)) = code lb ->
  (rank la <= rank lb)%nat.
Proof.
  rewrite CertificateProps.scoreToCefr_of_score.
  intros Ha Hb. apply CertificateProps.code_injective in Hb. subst lb.
  revert Ha. unfold scoreToCefr, ge.
  repeat match goal with
         | |- context [Qle_bool ?k x] =>
             let E := fresh "E" in
             destruct (Qle_bool k x) eqn:E;
             [apply Qle_bool_iff, (Math_round_at_least _ x) in E |]
         end;
    intros Ha;
    first [ apply (CertificateProps.code_injective C2) in Ha
          | apply (CertificateProps.code_injective C1) in Ha
          | apply (CertificateProps.code_injective B2) in Ha
          | apply (CertificateProps.code_injective B1) in Ha
          | apply (CertificateProps.code_injective A2) in Ha
          | apply (CertificateProps.code_injective A1) in Ha
          | apply (CertificateProps.code_injective A0) in Ha ];
    subst la; unfold of_score;
    repeat match goal with
           | |- context [?a <=? ?b] => destruct (Z.leb_spec a b)
           end; cbn; lia.
Qed.

Lemma rounding_never_lowers_band_witness : (rank C1 <= rank C2)%nat.
Proof.
  apply (rounding_never_lowers_band (171 # 2) C1 C2); reflexivity.
Defined.

(** X5.  When every skill score of the attempt is null or from 0 to 100,
    the four scores of the record and its overall score are from 0 to
    100. *)
Theorem record_scores_within_0_100 (src : Sources) (a : Attempt) :
  in_range (listening_score a) -> in_range (reading_score a) ->
  in_range (writing_score a) -> in_range (speaking_score a) ->
  let cd := buildCertificateData src a in
  0 <= listening (scores cd) <= 100 /\ 0 <= reading (scores cd) <= 100
  /\ 0 <= writing (scores cd) <= 100 /\ 0 <= speaking (scores cd) <= 100
  /\ 0 <= totalScore cd <= 100.
Proof.
  assert (Hround : forall x, in_range x ->
                     0 <= Math_round (nullish x 0%Q) <= 100).
  { intros [q |]; cbn.
    - intros [Hlo Hhi]. split.
      + now apply (Math_round_at_least 0).
      + now apply (Math_round_at_most 100).
    - intros _. now vm_compute. }
  intros Hl Hr Hw Hs. cbv zeta. unfold buildCertificateData.
  cbn [scores totalScore listening reading writing speaking].
  apply Hround in Hl, Hr, Hw, Hs.
  rewrite CertificateProps.overall_eq.
  repeat split; try lia; Z.div_mod_to_equations; lia.
Qed.

Lemma record_scores_within_0_100_witness :
  0 <= totalScore
         (buildCertificateData
            (mkSources None (Error "") None None None None (fun _ => 0))
            (mkAttempt None (Some (199 # 2)) (Some 0%Q) (Some 100%Q) None)) <= 100.
Proof.
  apply (record_scores_within_0_100
           (mkSources None (Error "") None None None None (fun _ => 0))
           (mkAttempt None (Some (199 # 2)) (Some 0%Q) (Some 100%Q) None));
    cbn; try exact I; split; discriminate.
Defined.

End ScoreProps.

(** ** More on the record and on what the page shows of it *)
Module RecordProps.

Import Js Certificate CertificateView Wording.

Lemma or_else_not_empty (s : option string) (d : string) :
  d <> "" -> or_else s d <> "".
Proof. intros Hd. destruct s as [[| c r] |]; cbn; [assumption | discriminate | assumption]. Qed.

Lemma or_else_keeps (s d : string) : s <> "" -> or_else (Some s) d = s.
Proof. destruct s; [contradiction | reflexivity]. Qed.

(** X6.  The record a fetch builds never has an empty candidate name or
    an empty certificate identifier, so the page shows them and not its
    stand-ins ('Felix Kigen', 'CERT-70200390'); an identifier that was not
    issued, or was issued empty, is "CERT-" and what follows of the
    attempt's id. *)
Theorem record_name_and_id_never_empty (src : Sources) (a : Attempt) :
  let cd := buildCertificateData src a in
  candidateName cd <> "" /\ certificateId cd <> ""
  /\ shownCandidateName cd = candidateName cd
  /\ shownCertificateId cd = certificateId cd
  /\ (or_else (cert_certificate_id src) "" = "" ->
      certificateId cd = "CERT-" ++ nullish (option_map (slice0 8) (id src)) "undefined").
Proof.
  cbv zeta.
  assert (Hn : candidateName (buildCertificateData src a) <> "")
    by (apply or_else_not_empty; discriminate).
  assert (Hc : certificateId (buildCertificateData src a) <> "")
    by (apply or_else_not_empty; discriminate).
  split; [assumption |]. split; [assumption |].
  split; [now apply or_else_keeps |]. split; [now apply or_else_keeps |].
  cbn. destruct (cert_certificate_id src) as [[| c r] |]; cbn; try discriminate;
    intros _; now destruct (id src).
Qed.

Lemma record_name_and_id_never_empty_witness :
  certificateId
    (buildCertificateData
       (mkSources None (Error "") None (Some "") None None (fun _ => 0))
       (mkAttempt None None None None None)) = "CERT-undefined".
Proof.
  destruct (record_name_and_id_never_empty
              (mkSources None (Error "") None (Some "") None None (fun _ => 0))
              (mkAttempt None None None None None)) as (_ & _ & _ & _ & H).
  apply H. reflexivity.
Defined.

(** X7.  Without a session, or when the attempt cannot be read, the fetch
    sets no record, whatever the profile and the certificate queries
    give: the data stay as they were and only [loading] is cleared. *)
Theorem fetch_without_attempt_sets_nothing (src : Sources) (st : State) :
  session src = None \/ (exists msg, attempt_query src = Error msg) ->
  fetchCertificateData src st = mkState (certificateData st) false.
Proof.
  unfold fetchCertificateData.
  intros [-> | (msg & ->)]; [reflexivity |].
  now destruct (session src).
Qed.

Lemma fetch_without_attempt_sets_nothing_witness :
  fetchCertificateData
    (mkSources (Some "user-1") (Error "PGRST116") (Some "Ann") (Some "C-1")
       None (Some "abc") (fun _ => 0))
    (mkState None true) = mkState None false.
Proof.
  apply (fetch_without_attempt_sets_nothing
           (mkSources (Some "user-1") (Error "PGRST116") (Some "Ann") (Some "C-1")
              None (Some "abc") (fun _ => 0))
           (mkState None true)).
  right. now exists "PGRST116".
Defined.

Lemma toUpperCase_word (c : ascii) :
  isWordChar (toUpperCase c) = isWordChar c
  /\ toUpperCase (toUpperCase c) = toUpperCase c.
Proof. destruct c as [[] [] [] [] [] [] [] []]; split; reflexivity. Qed.

Lemma capitalizeFrom_length (s : string) (b : bool) :
  String.length (capitalizeFrom b s) = String.length s.
Proof.
  revert b. induction s as [| c r IH]; intros b; cbn; [reflexivity |].
  now rewrite IH.
Qed.

Lemma capitalizeFrom_idempotent (s : string) (b : bool) :
  capitalizeFrom b (capitalizeFrom b s) = capitalizeFrom b s.
Proof.
  revert b. induction s as [| c r IH]; intros b; cbn; [reflexivity |].
  destruct (toUpperCase_word c) as [Hw Hu].
  destruct (isWordChar c) eqn:Ec, b; cbn;
    rewrite ?Hw, ?Ec, ?Hu; cbn; now rewrite IH.
Qed.

(** X8.  Writing a name with a capital at the start of every word keeps
    its length, and doing it again changes nothing more. *)
Theorem capitalizeWords_stable (s : string) :
  String.length (capitalizeWords s) = String.length s
  /\ capitalizeWords (capitalizeWords s) = capitalizeWords s.
Proof.
  split; [apply capitalizeFrom_length | apply capitalizeFrom_idempotent].
Qed.

Lemma underscoreFrom_spaceless (s : units) (b : bool) :
  spaceless (underscoreFrom b s) = true.
Proof.
  revert b. induction s as [| u r IH]; intros b; cbn; [reflexivity |].
  destruct (isSpace u) eqn:Eu.
  - destruct b; [apply IH |]. cbn. apply IH.
  - cbn. rewrite Eu. apply IH.
Qed.

Lemma underscoreFrom_of_spaceless (s : units) (b : bool) :
  spaceless s = true -> underscoreFrom b s = s.
Proof.
  revert b. induction s as [| u r IH]; intros b; cbn; [reflexivity |].
  intros H. apply andb_true_iff in H as [Hu Hr].
  apply negb_true_iff in Hu. rewrite Hu. f_equal. now apply IH.
Qed.

(** A word goes through as it is. *)
Lemma underscoreFrom_word (word rest : units) :
  spaceless word = true ->
  underscoreFrom false (word ++ rest)%list = (word ++ underscoreFrom false rest)%list.
Proof.
  induction word as [| u r IH]; cbn; [reflexivity |].
  intros H. apply andb_true_iff in H as [Hu Hr].
  apply negb_true_iff in Hu. rewrite Hu. f_equal. now apply IH.
Qed.

(** Inside a run, the rest of the run gives nothing. *)
Lemma underscoreFrom_in_run (run rest : units) :
  all_space run = true ->
  underscoreFrom true (run ++ rest)%list = underscoreFrom true rest.
Proof.
  induction run as [| u r IH]; cbn; [reflexivity |].
  intros H. apply andb_true_iff in H as [Hu Hr]. rewrite Hu. now apply IH.
Qed.

Lemma underscoreFrom_after_run (rest : units) :
  starts_a_word rest = true -> underscoreFrom true rest = underscoreFrom false rest.
Proof.
  destruct rest as [| u r]; cbn; [reflexivity |].
  intros Hu. apply negb_true_iff in Hu. now rewrite Hu.
Qed.

Lemma spaceless_app (a b : units) :
  spaceless (a ++ b)%list = spaceless a && spaceless b.
Proof. apply forallb_app. Qed.

(** X9.  In the name a certificate is saved under, every run of white
    space of the candidate name (of any kind that [\s] matches, and
    however long) is replaced by exactly one underscore, and the words
    between the runs are kept as they are; so the name holds no white
    space, and a candidate name without any is taken as it is. *)
Theorem downloadName_one_underscore_per_run (word run rest : units) :
  (spaceless word = true -> run <> [] -> all_space run = true ->
   starts_a_word rest = true ->
   underscoreSpaces (word ++ run ++ rest)%list
   = (word ++ 95%N :: underscoreSpaces rest)%list
   /\ downloadName (word ++ run ++ rest)%list
      = (units_of "IELTS_Pro_Certificate_" ++ word
           ++ 95%N :: underscoreSpaces rest ++ units_of ".pdf")%list)
  /\ spaceless (downloadName rest) = true
  /\ (spaceless rest = true ->
      downloadName rest
      = (units_of "IELTS_Pro_Certificate_" ++ rest ++ units_of ".pdf")%list).
Proof.
  split; [| split].
  - intros Hw Hne Hrun Hrest.
    assert (E : underscoreSpaces (word ++ run ++ rest)%list
                = (word ++ 95%N :: underscoreSpaces rest)%list).
    { unfold underscoreSpaces. rewrite (underscoreFrom_word _ _ Hw). f_equal.
      destruct run as [| u r]; [contradiction |].
      cbn in Hrun. apply andb_true_iff in Hrun as [Hu Hr].
      cbn. rewrite Hu. f_equal.
      rewrite (underscoreFrom_in_run _ _ Hr).
      now apply underscoreFrom_after_run. }
    split; [exact E |].
    unfold downloadName. rewrite E. now rewrite <- app_assoc.
  - unfold downloadName, underscoreSpaces.
    rewrite !spaceless_app, underscoreFrom_spaceless. reflexivity.
  - intros H. unfold downloadName, underscoreSpaces.
    now rewrite underscoreFrom_of_spaceless.
Qed.

Lemma downloadName_one_underscore_per_run_witness :
  downloadName (units_of "Ann" ++ [32; 160; 9; 8232]%N ++ units_of "Lee")%list
  = units_of "IELTS_Pro_Certificate_Ann_Lee.pdf".
Proof.
  destruct (downloadName_one_underscore_per_run
              (units_of "Ann") [32; 160; 9; 8232]%N (units_of "Lee"))
    as [H _].
  destruct H as [_ H]; [reflexivity | discriminate | reflexivity | reflexivity |].
  rewrite H. reflexivity.
Defined.

End RecordProps.

(** ** The award line: [formatAwardDate] and the strings it is given *)
Module AwardDateProps.

Import Js JsDate Certificate Wording.

Lemma split_piece (a b : string) :
  no_space a = true -> split " " (a ++ String " " b) = a :: split " " b.
Proof.
  unfold no_space. induction a as [| c r IH]; cbn; [reflexivity |].
  intros H. apply andb_true_iff in H as [Hc Hr].
  apply negb_true_iff in Hc. rewrite Hc, (IH Hr). reflexivity.
Qed.

Lemma split_last (a : string) : no_space a = true -> split " " a = [a].
Proof.
  unfold no_space. induction a as [| c r IH]; cbn; [reflexivity |].
  intros H. apply andb_true_iff in H as [Hc Hr].
  apply negb_true_iff in Hc. rewrite Hc, (IH Hr). reflexivity.
Qed.

Lemma append_comma (a b : string) : (a ++ ",") ++ b = a ++ String "," b.
Proof. induction a as [| c r IH]; cbn; [reflexivity | now rewrite IH]. Qed.

Lemma or_else_empty (s : string) : or_else (Some s) "" = s.
Proof. now destruct s. Qed.

Lemma string_of_uint_no_space (u : Decimal.uint) :
  no_space (NilEmpty.string_of_uint u) = true.
Proof. induction u; cbn; trivial. Qed.

(** The decimal string of an integer is not empty and holds no space. *)
Lemma toString_piece (n : Z) : no_space (toString n) = true /\ toString n <> "".
Proof.
  unfold toString, NilZero.string_of_int, NilZero.string_of_uint.
  destruct (Z.to_int n) as [u | u]; destruct u; cbn;
    (split; [try reflexivity; apply string_of_uint_no_space | discriminate]).
Qed.

Lemma day_cases (d : Z) :
  1 <= d <= 31 ->
  In d [1; 2; 3; 4; 5; 6; 7; 8; 9; 10; 11; 12; 13; 14; 15; 16; 17; 18; 19;
        20; 21; 22; 23; 24; 25; 26; 27; 28; 29; 30; 31].
Proof. intros H. cbn. lia. Qed.

Lemma month_cases (m : Z) :
  1 <= m <= 12 -> In m [1; 2; 3; 4; 5; 6; 7; 8; 9; 10; 11; 12].
Proof. intros H. cbn. lia. Qed.

(** Goes through the days, or the months, of a membership [H]. *)
Ltac each_of H :=
  cbn in H;
  repeat (destruct H as [<- | H];
          [repeat split; first [reflexivity | discriminate] |]);
  contradiction.

(** The ending the code computes for a day is the ending of its ordinal. *)
Lemma suffix_is_ordinal (d : Z) :
  1 <= d <= 31 ->
  (if (Z.rem d 10 =? 1) && negb (d =? 11) then "st"
   else if (Z.rem d 10 =? 2) && negb (d =? 12) then "nd"
   else if (Z.rem d 10 =? 3) && negb (d =? 13) then "rd"
   else "th") = ordinal d.
Proof. intros H. apply day_cases in H. each_of H. Qed.

Lemma day_piece (d : Z) :
  1 <= d <= 31 ->
  no_space (two_digit d) = true /\ two_digit d <> ""
  /\ parseInt (two_digit d) = Some d
  /\ parseInt (toString d) = Some d
  /\ no_space (two_digit d ++ ",") = true /\ two_digit d ++ "," <> ""
  /\ monthFullName (two_digit d ++ ",") = None.
Proof. intros H. apply day_cases in H. each_of H. Qed.

Lemma month_piece (m : Z) :
  1 <= m <= 12 ->
  no_space (month_short m) = true /\ month_short m <> ""
  /\ monthFullName (month_short m) = Some (month_full m)
  /\ parseInt (month_short m) = None.
Proof. intros H. apply month_cases in H. each_of H. Qed.

(** X10.  Given a date written day first, [DD Mon YYYY], the award line
    reads the day without its leading zero and with the ending of its
    ordinal, the full name of the month, and the year as written;
    today's date plays no part. *)
Theorem formatAwardDate_day_first (today : Civil) (d m : Z) (yyyy : string) :
  1 <= d <= 31 -> 1 <= m <= 12 -> no_space yyyy = true -> yyyy <> "" ->
  formatAwardDate today (two_digit d ++ " " ++ month_short m ++ " " ++ yyyy)
  = toString d ++ ordinal d ++ " day of " ++ month_full m ++ ", " ++ yyyy.
Proof.
  intros Hd Hm Hy Hy0.
  destruct (day_piece d Hd) as (Hd1 & Hd2 & Hd3 & _).
  destruct (month_piece m Hm) as (Hm1 & Hm2 & Hm3 & _).
  unfold formatAwardDate. rewrite or_else_empty.
  cbn [append]. rewrite (split_piece _ _ Hd1), (split_piece _ _ Hm1), (split_last _ Hy).
  cbn [nth_error].
  rewrite !RecordProps.or_else_keeps by assumption.
  rewrite Hd3, Hm3. cbn [or_else].
  rewrite (suffix_is_ordinal d Hd).
  destruct (month_full m) eqn:E; [| reflexivity].
  exfalso. apply month_cases in Hm. cbn in Hm.
  repeat (destruct Hm as [<- | Hm]; [discriminate E |]). contradiction.
Qed.

Lemma formatAwardDate_day_first_witness :
  formatAwardDate (mkCivil 1999 1 1) "22 Feb 2024" = "22nd day of February, 2024".
Proof.
  apply (formatAwardDate_day_first (mkCivil 1999 1 1) 22 2 "2024");
    first [lia | reflexivity | discriminate].
Defined.

(** X11.  Given the empty string, the award line is made of today's
    date. *)
Theorem formatAwardDate_of_nothing (today : Civil) :
  1 <= date today <= 31 -> 1 <= month today <= 12 ->
  formatAwardDate today ""
  = toString (date today) ++ ordinal (date today) ++ " day of "
      ++ month_full (month today) ++ ", " ++ toString (year today).
Proof.
  intros Hd Hm.
  destruct (day_piece _ Hd) as (_ & _ & _ & Hd3 & _).
  destruct (month_piece _ Hm) as (_ & Hm2 & Hm3 & _).
  destruct (toString_piece (date today)) as [_ Hd0].
  destruct (toString_piece (year today)) as [_ Hy0].
  unfold formatAwardDate. cbn [or_else split nth_error].
  rewrite Hd3, Hm3. cbn [or_else].
  rewrite (suffix_is_ordinal _ Hd).
  destruct (month_full (month today)) eqn:E; [| reflexivity].
  exfalso. apply month_cases in Hm. cbn in Hm.
  repeat (destruct Hm as [Hm' | Hm];
          [rewrite <- Hm' in E; discriminate E |]). contradiction.
Qed.

Lemma formatAwardDate_of_nothing_witness :
  formatAwardDate (mkCivil 2025 7 3) "" = "3rd day of July, 2025".
Proof.
  apply (formatAwardDate_of_nothing (mkCivil 2025 7 3)); cbn; lia.
Defined.

(** X12.  Given the test date of a record that a fetch built, for any
    valid date and any time zone, the award line has no day: it reads
    "NaNth day of", then the day with a comma in the place of the month,
    then the year. *)
Theorem formatAwardDate_of_built_testDate (today : Civil) (tz : Z -> Z) (t : Z) :
  let c := local_civil tz t in
  formatAwardDate today (toLocaleDateString_enUS tz (Some t))
  = "NaNth day of " ++ two_digit (date c) ++ ",, " ++ toString (year_of_era (year c)).
Proof.
  cbv zeta. unfold toLocaleDateString_enUS.
  set (c := local_civil tz t).
  destruct (DateProps.civil_from_days_bounds (Day (t + tz t))) as [Hm Hd].
  fold (local_civil tz t) in Hm, Hd. fold c in Hm, Hd.
  destruct (day_piece _ Hd) as (_ & _ & _ & _ & Hd1 & Hd2 & Hd3).
  destruct (month_piece _ Hm) as (Hm1 & Hm2 & _ & Hm3).
  destruct (toString_piece (year_of_era (year c))) as [Hy Hy0].
  replace (month_short (month c) ++ " " ++ two_digit (date c) ++ ", "
             ++ toString (year_of_era (year c)))
    with (month_short (month c)
            ++ String " " ((two_digit (date c) ++ ",")
                             ++ String " " (toString (year_of_era (year c))))).
  2: { rewrite append_comma. reflexivity. }
  unfold formatAwardDate. rewrite or_else_empty.
  rewrite (split_piece _ _ Hm1), (split_piece _ _ Hd1), (split_last _ Hy).
  cbn [nth_error].
  rewrite !RecordProps.or_else_keeps by assumption.
  rewrite Hm3, Hd3. cbn [or_else andb].
  rewrite append_comma. reflexivity.
Qed.

(** X27.  Whatever the attempt's date and the time zone, the test date
    of a built record is not of the shape [DD Mon YYYY]; for a date that
    cannot be read it is "Invalid Date", and the award line then reads
    "NaNth day of Date," and the current year. *)
Theorem built_testDate_is_never_day_first
    (src : Sources) (a : Attempt) (today : Civil) :
  DatePattern.DD_Mon_YYYY (testDate (buildCertificateData src a)) = false
  /\ (test_date a = None ->
      testDate (buildCertificateData src a) = "Invalid Date"
      /\ formatAwardDate today (testDate (buildCertificateData src a))
         = "NaNth day of Date, " ++ toString (year today)).
Proof.
  split; [apply DateProps.testDate_never_day_first |].
  cbn [testDate buildCertificateData]. intros ->. split; [reflexivity |].
  cbn [toLocaleDateString_enUS].
  destruct (toString_piece (year today)) as [_ Hy].
  unfold formatAwardDate. cbn [or_else split Ascii.eqb Bool.eqb nth_error].
  cbn. reflexivity.
Qed.

Lemma built_testDate_is_never_day_first_witness :
  formatAwardDate (mkCivil 2025 7 3)
    (testDate
       (buildCertificateData
          (mkSources None (Error "") None None None None (fun _ => 0))
          (mkAttempt None None None None None)))
  = "NaNth day of Date, 2025".
Proof.
  destruct (built_testDate_is_never_day_first
              (mkSources None (Error "") None None None None (fun _ => 0))
              (mkAttempt None None None None None) (mkCivil 2025 7 3))
    as [_ H].
  destruct (H eq_refl) as [_ H']. exact H'.
Defined.

End AwardDateProps.

(** ** More on the edge function *)
Module ReconcileProps.

Import Ledger VerifyPayment LedgerProps VerifyPaymentProps Wording.

(** What an invocation does to a ledger does not depend on the ledger:
    nothing, or the same update of the rows of the reference. *)
Lemma handler_effect (w : World) (req : Request) :
  (forall l, snd (handler w req l) = l)
  \/ exists ref st v,
       req = Parsed (Some ref) /\ (st = "verified" \/ st = "failed")
       /\ forall l, snd (handler w req l) = map (update_row ref st (json v)) l.
Proof.
  unfold handler.
  destruct (_ || _); [now left |].
  destruct req as [| [ref |]]; [now left | | now left].
  destruct (falsy ref); [now left |].
  destruct (gateway w ref) as [v |]; [| now left].
  destruct (negb (ok v)); [now left |].
  destruct (store w); [| now left].
  right. exists ref, (stored_status (reported_status v)), v.
  split; [reflexivity |]. split; [| reflexivity].
  unfold stored_status. destruct (reported_status v) as [[| | | s | |] |]; auto.
  destruct (String.eqb s "success"); auto.
Qed.


Lemma handler_unconfigured (w : World) (req : Request) (l : Ledger.t) :
  configured (env w) = false ->
  handler w req l = (Returned (mkResponse (Text "missing env") 500), l).
Proof.
  unfold handler, configured. intros H.
  apply negb_false_iff in H. now rewrite H.
Qed.

Lemma handler_rejected (w : World) (ref : string) (v : Verify) (l : Ledger.t) :
  configured (env w) = true -> ref <> "" ->
  gateway w ref = Some v -> ok v = false ->
  handler w (Parsed (Some ref)) l
  = (Returned (mkResponse (Stringified (json v)) 502), l).
Proof.
  intros Hcfg Href Hgw Hok. unfold handler, configured in *.
  apply negb_true_iff in Hcfg. rewrite Hcfg.
  unfold falsy at 1. destruct (String.eqb_spec ref ""); [contradiction |].
  now rewrite Hgw, Hok.
Qed.

(** X14.  The handler answers with HTTP status 200, 400, 500 or 502, and
    it leaves the ledger as it was unless it answers 200; so does an
    invocation that ends without an answer. *)
Theorem handler_changes_ledger_only_with_200 (w : World) (req : Request) (l : Ledger.t) :
  match fst (handler w req l) with
  | Returned r =>
      In (http_status r) [200; 400; 500; 502]
      /\ (http_status r <> 200 -> snd (handler w req l) = l)
  | Thrown => snd (handler w req l) = l
  end.
Proof.
  unfold handler.
  destruct (_ || _); [cbn; split; auto 6 |].
  destruct req as [| [ref |]]; [reflexivity | | cbn; split; auto 6].
  destruct (falsy ref); [cbn; split; auto 6 |].
  destruct (gateway w ref) as [v |]; [| reflexivity].
  destruct (negb (ok v)); [cbn; split; auto 6 |].
  destruct (store w); cbn; split; auto 6. intros H. now contradiction H.
Qed.

Lemma handler_changes_ledger_only_with_200_witness :
  snd (handler
         (mkWorld Sample.env (fun _ => Some (mkVerify false Json.Null)) Ok)
         (Parsed (Some "1700000000000")) Sample.ledger) = Sample.ledger.
Proof.
  pose proof (handler_changes_ledger_only_with_200
                (mkWorld Sample.env (fun _ => Some (mkVerify false Json.Null)) Ok)
                (Parsed (Some "1700000000000")) Sample.ledger) as H.
  cbn in H. destruct H as [_ H]. apply H. discriminate.
Defined.

(** X15.  The settings and the reference are checked before the gateway
    is asked: with a setting missing or empty the answer is 500 "missing
    env", and with the settings there and the reference missing or empty
    it is 400 "missing reference", whatever the gateway would say; the
    ledger is not touched. *)
Theorem handler_fails_before_gateway
    (e : Env) (g : string -> option Verify) (st : Outcome)
    (req : Request) (l : Ledger.t) :
  (configured e = false ->
   handler (mkWorld e g st) req l
   = (Returned (mkResponse (Text "missing env") 500), l))
  /\ (configured e = true -> req = Parsed None \/ req = Parsed (Some "") ->
      handler (mkWorld e g st) req l
      = (Returned (mkResponse (Text "missing reference") 400), l)).
Proof.
  unfold handler, configured. cbn [env]. split.
  - intros H. apply negb_false_iff in H. now rewrite H.
  - intros H. apply negb_true_iff in H. rewrite H.
    now intros [-> | ->].
Qed.

Lemma handler_fails_before_gateway_witness :
  handler (mkWorld (mkEnv (Some "sk") None (Some "key")) (fun _ => None) Ok)
    (Parsed (Some "1")) []
  = (Returned (mkResponse (Text "missing env") 500), [])
  /\ handler (mkWorld Sample.env (fun _ => None) Ok) (Parsed (Some "")) []
     = (Returned (mkResponse (Text "missing reference") 400), []).
Proof.
  split.
  - apply (handler_fails_before_gateway (mkEnv (Some "sk") None (Some "key"))).
    reflexivity.
  - apply (handler_fails_before_gateway Sample.env); [reflexivity | now right].
Defined.

(** X16.  When the gateway's answer is not accepted ([verifyRes.ok] is
    false) the handler passes the gateway's body on with status 502, and
    when the store reports an error it answers 500 with the store's
    message; in both cases the rows keep the status they had. *)
Theorem handler_passes_failures_on
    (w : World) (ref : string) (v : Verify) (l : Ledger.t) :
  configured (env w) = true -> ref <> "" -> gateway w ref = Some v ->
  (ok v = false ->
   handler w (Parsed (Some ref)) l
   = (Returned (mkResponse (Stringified (json v)) 502), l))
  /\ (forall message, ok v = true -> store w = Failed message ->
      handler w (Parsed (Some ref)) l
      = (Returned (mkResponse (Text message) 500), l)).
Proof.
  intros Hcfg Href Hgw. split.
  - intros Hok. unfold handler, configured in *.
    apply negb_true_iff in Hcfg. rewrite Hcfg.
    unfold falsy at 1. destruct (String.eqb_spec ref ""); [contradiction |].
    now rewrite Hgw, Hok.
  - intros message Hok Hst.
    rewrite (handler_reaches_update w ref v Hcfg Href Hgw Hok l).
    now rewrite Hst.
Qed.

Lemma handler_passes_failures_on_witness :
  handler (mkWorld Sample.env (fun _ => Some (mkVerify false Json.Null)) Ok)
    (Parsed (Some "1700000000000")) Sample.ledger
  = (Returned (mkResponse (Stringified Json.Null) 502), Sample.ledger)
  /\ handler (mkWorld Sample.env (fun _ => Some Sample.verified) (Failed "timeout"))
       (Parsed (Some "1700000000000")) Sample.ledger
     = (Returned (mkResponse (Text "timeout") 500), Sample.ledger).
Proof.
  split.
  - apply (handler_passes_failures_on
             (mkWorld Sample.env (fun _ => Some (mkVerify false Json.Null)) Ok)
             "1700000000000" (mkVerify false Json.Null) Sample.ledger);
      first [reflexivity | discriminate].
  - apply (handler_passes_failures_on
             (mkWorld Sample.env (fun _ => Some Sample.verified) (Failed "timeout"))
             "1700000000000" Sample.verified Sample.ledger);
      first [reflexivity | discriminate].
Defined.

Lemma update_row_identity (ref st : string) (resp : Json.value) (r : Row) :
  identity (update_row ref st resp r) = identity r.
Proof. unfold update_row. now destruct (String.eqb (reference r) ref). Qed.

(** X17.  The handler adds no row and removes none, and it leaves the
    user, the amount, the purpose and the reference of every row as they
    were: only the status and the stored gateway answer can change. *)
Theorem handler_keeps_rows (w : World) (req : Request) (l : Ledger.t) :
  map identity (snd (handler w req l)) = map identity l
  /\ List.length (snd (handler w req l)) = List.length l.
Proof.
  destruct (handler_effect w req) as [E | (ref & st & v & _ & _ & E)];
    rewrite E; [now split |].
  rewrite map_map, List.length_map. split; [| reflexivity].
  apply map_ext. intros r. apply update_row_identity.
Qed.

(** X18.  Every row of the ledger after an invocation is a row from
    before, or a row from before stored anew with status [verified] or
    [failed]: the handler writes no other status. *)
Theorem handler_writes_verified_or_failed
    (w : World) (req : Request) (l : Ledger.t) (r : Row) :
  In r (snd (handler w req l)) ->
  In r l
  \/ (exists r0, In r0 l /\ identity r = identity r0)
     /\ (status r = "verified" \/ status r = "failed").
Proof.
  destruct (handler_effect w req) as [E | (ref & st & v & _ & Hst & E)];
    rewrite E; [now left |].
  intros Hin. apply in_map_iff in Hin as (r0 & <- & Hin0).
  unfold update_row. destruct (String.eqb (reference r0) ref); [| now left].
  right. split; [now exists r0 | exact Hst].
Qed.

Lemma handler_writes_verified_or_failed_witness :
  exists r, In r (snd (handler Sample.world (Parsed (Some "1700000000000"))
                         Sample.ledger))
            /\ status r = "verified".
Proof.
  eexists. split; [left; reflexivity |].
  destruct (handler_writes_verified_or_failed Sample.world
              (Parsed (Some "1700000000000")) Sample.ledger _
              (or_introl eq_refl)) as [[H | []] | [_ [H | H]]];
    [discriminate H | exact H | discriminate H].
Defined.

Lemma update_row_overwrites (ref st st' : string) (resp resp' : Json.value) (r : Row) :
  update_row ref st' resp' (update_row ref st resp r) = update_row ref st' resp' r.
Proof.
  unfold update_row at 1. rewrite update_row_reference.
  destruct (String.eqb_spec (reference r) ref) as [E | N].
  - unfold update_row. rewrite E, String.eqb_refl. reflexivity.
  - now rewrite !update_row_miss by assumption.
Qed.

Lemma update_row_commutes (ref ref' st st' : string) (resp resp' : Json.value) (r : Row) :
  ref <> ref' ->
  update_row ref' st' resp' (update_row ref st resp r)
  = update_row ref st resp (update_row ref' st' resp' r).
Proof.
  intros Hne. unfold update_row.
  destruct (String.eqb_spec (reference r) ref) as [E | N];
    destruct (String.eqb_spec (reference r) ref') as [E' | N']; cbn.
  - congruence.
  - destruct (String.eqb_spec (reference r) ref'); [contradiction |].
    destruct (String.eqb_spec (reference r) ref); [reflexivity | contradiction].
  - destruct (String.eqb_spec (reference r) ref); [contradiction |].
    destruct (String.eqb_spec (reference r) ref'); [reflexivity | contradiction].
  - destruct (String.eqb_spec (reference r) ref'); [contradiction |].
    destruct (String.eqb_spec (reference r) ref); [contradiction | reflexivity].
Qed.

(** X19.  The latest verification wins: after an invocation that gets to
    the update, the ledger is what that invocation alone would have made
    of it, whatever an earlier invocation on the same reference stored. *)
Theorem latest_verification_wins
    (w w' : World) (ref : string) (v' : Verify) (l : Ledger.t) :
  configured (env w') = true -> ref <> "" ->
  gateway w' ref = Some v' -> ok v' = true -> store w' = Ok ->
  snd (handler w' (Parsed (Some ref)) (snd (handler w (Parsed (Some ref)) l)))
  = snd (handler w' (Parsed (Some ref)) l).
Proof.
  intros Hcfg Href Hgw Hok Hst.
  rewrite !(handler_reaches_update w' ref v' Hcfg Href Hgw Hok), Hst.
  cbn [snd update].
  destruct (handler_effect w (Parsed (Some ref)))
    as [E | (ref0 & st & v & Hreq & _ & E)]; rewrite E; [reflexivity |].
  injection Hreq as <-.
  rewrite map_map. apply map_ext. intros r. apply update_row_overwrites.
Qed.

Lemma latest_verification_wins_witness :
  map status
    (snd (handler Sample.world (Parsed (Some "1700000000000"))
            (snd (handler
                    (mkWorld Sample.env
                       (fun _ => Some (mkVerify true Json.Null)) Ok)
                    (Parsed (Some "1700000000000")) Sample.ledger))))
  = ["verified"].
Proof.
  rewrite (latest_verification_wins
             (mkWorld Sample.env (fun _ => Some (mkVerify true Json.Null)) Ok)
             Sample.world "1700000000000" Sample.verified Sample.ledger);
    first [reflexivity | discriminate].
Defined.

(** X20.  Verifications of two different references do not interfere:
    the ledger is the same in whichever order they run. *)
Theorem verifications_of_different_references_commute
    (w w' : World) (ref ref' : string) (l : Ledger.t) :
  ref <> ref' ->
  snd (handler w' (Parsed (Some ref')) (snd (handler w (Parsed (Some ref)) l)))
  = snd (handler w (Parsed (Some ref)) (snd (handler w' (Parsed (Some ref')) l))).
Proof.
  intros Hne.
  destruct (handler_effect w (Parsed (Some ref)))
    as [E | (r0 & st & v & Hreq & _ & E)];
    destruct (handler_effect w' (Parsed (Some ref')))
      as [E' | (r0' & st' & v' & Hreq' & _ & E')];
    rewrite ?E, ?E', ?E; try reflexivity.
  injection Hreq as <-. injection Hreq' as <-.
  rewrite !map_map. apply map_ext. intros r.
  now apply update_row_commutes.
Qed.

Lemma verifications_of_different_references_commute_witness :
  snd (handler Sample.world (Parsed (Some "2"))
         (snd (handler Sample.world (Parsed (Some "1700000000000")) Sample.ledger)))
  = snd (handler Sample.world (Parsed (Some "1700000000000"))
           (snd (handler Sample.world (Parsed (Some "2")) Sample.ledger))).
Proof.
  apply (verifications_of_different_references_commute Sample.world Sample.world
           "1700000000000" "2" Sample.ledger).
  discriminate.
Defined.

End ReconcileProps.

(** ** More on the payment modal *)
Module ModalProps.

Import Ledger VerifyPayment PaymentModal Storage Wording.
Import LedgerProps VerifyPaymentProps ReconcileProps.





(** X22.  The row that a gateway success stores is left with the status
    [success] when the edge function lacks a setting or the gateway does
    not accept the verification; when the verification gets to the
    update, the row is stored anew with the status of the gateway's
    report. *)
Theorem stored_row_status_after_success
    (h : Host) (c : Config) (response : Json.value) (l : Ledger.t) (cl : Client)
    (uid : string) :
  session_user_id h = Some uid -> uid <> "" -> insert_outcome h = Ok ->
  let l' := fst (handlePaymentSuccess h c response l cl) in
  (configured (env (backend h)) = false ->
   l' = (l ++ [success_row c uid response])%list)
  /\ (forall v, configured (env (backend h)) = true ->
        PaymentModal.reference c <> "" ->
        gateway (backend h) (PaymentModal.reference c) = Some v ->
        (ok v = false -> l' = (l ++ [success_row c uid response])%list)
        /\ (ok v = true -> store (backend h) = Ok ->
            l' = map (update_row (PaymentModal.reference c)
                        (stored_status (reported_status v)) (json v))
                   (l ++ [success_row c uid response])%list)).
Proof.
  intros Hs Hu Hi. cbv zeta. unfold handlePaymentSuccess. rewrite Hs, Hi.
  destruct (String.eqb_spec uid ""); [contradiction |]. cbn [fst insert].
  split.
  - intros Hcfg. now rewrite (handler_unconfigured _ _ _ Hcfg).
  - intros v Hcfg Href Hgw. split.
    + intros Hok.
      now rewrite (handler_rejected _ _ _ _ Hcfg Href Hgw Hok).
    + intros Hok Hst.
      now rewrite (handler_reaches_update _ _ _ Hcfg Href Hgw Hok), Hst.
Qed.

Lemma stored_row_status_after_success_witness :
  map status
    (fst (handlePaymentSuccess
            (mkHost "" (Some "pk_test_1") (Some "user-1") Ok true
               (mkWorld (mkEnv None None None) (fun _ => None) Ok))
            (paystackConfig 5 "" (Some "pk_test_1")) Json.Null [] (mkClient [] [] 0)))
  = ["success"].
Proof.
  destruct (stored_row_status_after_success
              (mkHost "" (Some "pk_test_1") (Some "user-1") Ok true
                 (mkWorld (mkEnv None None None) (fun _ => None) Ok))
              (paystackConfig 5 "" (Some "pk_test_1")) Json.Null [] (mkClient [] [] 0)
              "user-1" eq_refl ltac:(discriminate) eq_refl) as [H _].
  rewrite H; reflexivity.
Defined.

Lemma step_without_success (h : Host) (m : Modal) (e : Event) :
  is_success e = false ->
  ledger (step h m e) = ledger m
  /\ localStorage (client (step h m e)) = localStorage (client m)
  /\ onSuccess_calls (client (step h m e)) = onSuccess_calls (client m).
Proof.
  destruct e as [now | | response |]; cbn; try discriminate; intros _.
  - now repeat split.
  - destruct (config m) as [c |]; [| now repeat split].
    destruct (canPay c); now repeat split.
  - now repeat split.
Qed.

(** X23.  As long as the gateway reports no success, nothing the modal
    does stores a row, writes to [localStorage] or calls [onSuccess]:
    renders, presses of the button and closings of the checkout leave all
    three as they were. *)
Theorem nothing_recorded_without_success (h : Host) (es : list Event) (m : Modal) :
  forallb (fun e => negb (is_success e)) es = true ->
  ledger (run h m es) = ledger m
  /\ localStorage (client (run h m es)) = localStorage (client m)
  /\ onSuccess_calls (client (run h m es)) = onSuccess_calls (client m).
Proof.
  revert m. induction es as [| e es IH]; intros m; cbn; [now repeat split |].
  intros H. apply andb_true_iff in H as [He Hes].
  apply negb_true_iff in He.
  destruct (step_without_success h m e He) as (H1 & H2 & H3).
  destruct (IH (step h m e) Hes) as (I1 & I2 & I3).
  unfold run in *. now rewrite I1, I2, I3.
Qed.

Lemma nothing_recorded_without_success_witness :
  ledger (run Sample.host (mounted Sample.ledger)
            [Render 1; Pay; GatewayClose; Render 2; Pay]) = Sample.ledger.
Proof.
  apply (nothing_recorded_without_success Sample.host
           [Render 1; Pay; GatewayClose; Render 2; Pay] (mounted Sample.ledger)).
  reflexivity.
Defined.

Lemma canPay_is_key_accepted (now : Z) (email : string) (key : option string) :
  canPay (paystackConfig now email key) = key_accepted key.
Proof.
  unfold canPay, isAllowedKey, key_accepted. cbn [publicKey paystackConfig].
  destruct (Js.or_else key "") as [| a r]; [reflexivity |].
  reflexivity.
Qed.

Lemma step_keeps_checkout_closed (h : Host) (m : Modal) (e : Event) :
  key_accepted (VITE_PAYSTACK_PUBLIC_KEY h) = false ->
  checkout_opened m = false ->
  (forall c, config m = Some c -> canPay c = false) ->
  checkout_opened (step h m e) = false
  /\ (forall c, config (step h m e) = Some c -> canPay c = false).
Proof.
  intros Hkey Hc Hcfg.
  destruct e as [now | | response |].
  - cbn. split; [assumption |].
    intros c [= <-]. now rewrite canPay_is_key_accepted.
  - unfold step. destruct (config m) as [c |] eqn:E.
    + rewrite (Hcfg c eq_refl). rewrite <- E in Hcfg. now split.
    + rewrite <- E in Hcfg. now split.
  - unfold step. destruct (config m) as [c |] eqn:E.
    + destruct (handlePaymentSuccess h c response (ledger m) (client m)).
      cbn. now split.
    + rewrite <- E in Hcfg. now split.
  - cbn. now split.
Qed.

(** X24.  Without a configured key that opens with "pk_live" or
    "pk_test" (no key at all, an empty one, any other), the checkout of
    the gateway is never opened, whatever is rendered and pressed. *)
Theorem checkout_needs_accepted_key (h : Host) (es : list Event) (l : Ledger.t) :
  key_accepted (VITE_PAYSTACK_PUBLIC_KEY h) = false ->
  checkout_opened (run h (mounted l) es) = false.
Proof.
  intros Hkey.
  assert (Hinv : forall es m,
             checkout_opened m = false ->
             (forall c, config m = Some c -> canPay c = false) ->
             checkout_opened (run h m es) = false).
  { clear es. induction es as [| e es IH]; intros m Hc Hcfg; [exact Hc |].
    destruct (step_keeps_checkout_closed h m e Hkey Hc Hcfg) as [Hc' Hcfg'].
    cbn. now apply IH. }
  apply Hinv; [reflexivity | discriminate].
Qed.

Lemma checkout_needs_accepted_key_witness :
  checkout_opened
    (run (mkHost "ann@example.com" (Some "sk_live_1") (Some "user-1") Ok true
            Sample.world)
       (mounted []) [Render 1; Pay; Pay]) = false.
Proof.
  apply (checkout_needs_accepted_key
           (mkHost "ann@example.com" (Some "sk_live_1") (Some "user-1") Ok true
              Sample.world)).
  reflexivity.
Defined.



(** X26.  No sequence of events of the modal stores a row with status
    [pending]: a pending row found in the ledger afterwards was there
    before. *)
Theorem modal_never_stores_pending
    (h : Host) (es : list Event) (m : Modal) (r : Row) :
  In r (ledger (run h m es)) -> status r = "pending" -> In r (ledger m).
Proof. apply PaymentModalProps.run_writes_no_pending. Qed.

Lemma modal_never_stores_pending_witness :
  In (mkRow "user-9" 100 "reattempt" "7" "pending" Json.Null)
     [mkRow "user-9" 100 "reattempt" "7" "pending" Json.Null].
Proof.
  apply (modal_never_stores_pending Sample.host
           [Render 1700000000000; Pay; GatewaySuccess Json.Null]
           (mounted [mkRow "user-9" 100 "reattempt" "7" "pending" Json.Null]));
    [left; reflexivity | reflexivity].
Defined.

End ModalProps.
